(** * Token reduction benchmark runner (benchmarks/run-benchmarks.py)

    A shallow embedding of the benchmark script and the properties of its
    report, its exported summary and its exit status.

    Python values are modelled as follows.
    - [int] is [Z]; [float] is an IEEE 754 binary64 value, [spec_float] at
      precision 53 and maximal exponent 1024, rounded to nearest even.
    - [str] is [string]; file names are compared character by character.
    - a decoded JSON document is [json]; a Python dict with fixed keys (the
      scenario result) is a record.
    - statements run in a monad over the standard output and the disk, whose
      results are a value, a raised [Exception] or [SystemExit].

    What the script takes from outside is a parameter: the tokenizer, the
    JSON decoder and encoder, and the renderings of [str] and [format].
    Printing and writing the results file are taken to succeed; a float read
    from a descriptor is a valid binary64 value; [sum] adds from left to
    right. *)

From Stdlib Require Import QArith ZArith List String Ascii Bool Lia DecimalString.
From Stdlib Require Import Permutation Sorted.
From Stdlib Require Import SpecFloat.
Import ListNotations.

Local Open Scope string_scope.
Local Open Scope list_scope.
Local Open Scope Z_scope.

(** ** Exceptions *)

(** The subclasses of [Exception] that can reach the handler in [main].
    [LibraryError] stands for whatever the file system, the JSON decoder or
    the tokenizer raise (FileNotFoundError, UnicodeDecodeError,
    JSONDecodeError, ...), tagged with its text. *)
Inductive exn : Type :=
| ZeroDivisionError
| OverflowError
| KeyError (key : string)
| TypeError
| ValueError
| LibraryError (text : string).

(** A pure computation that may raise. *)
Inductive res (A : Type) : Type :=
| Ok (a : A)
| Err (e : exn).
Arguments Ok {A} a.
Arguments Err {A} e.

Definition res_bind {A B} (r : res A) (k : A -> res B) : res B :=
  match r with
  | Ok a => k a
  | Err e => Err e
  end.

(** ** Numbers *)

Module Float.

Definition prec : Z := 53.
Definition emax : Z := 1024.

Definition mul : spec_float -> spec_float -> spec_float := SFmul prec emax.
Definition add : spec_float -> spec_float -> spec_float := SFadd prec emax.
Definition div : spec_float -> spec_float -> spec_float := SFdiv prec emax.

Definition is_zero (f : spec_float) : bool :=
  match f with
  | S754_zero _ => true
  | _ => false
  end.

(** [float(n)]: the nearest double, OverflowError beyond the range. *)
Definition of_int (n : Z) : res spec_float :=
  match binary_normalize prec emax n 0 false with
  | S754_infinity _ => Err OverflowError
  | f => Ok f
  end.

(** [a / b] on two ints: the exact quotient rounded once. *)
Definition int_true_divide (a b : Z) : res spec_float :=
  if b =? 0 then Err ZeroDivisionError
  else if a =? 0 then Ok (S754_zero (b <? 0))
  else
    let '(q, e, l) := SFdiv_core_binary prec emax (Z.abs a) 0 (Z.abs b) 0 in
    match binary_round_aux prec emax (xorb (a <? 0) (b <? 0)) q e l with
    | S754_infinity _ => Err OverflowError
    | f => Ok f
    end.

(** Exact comparison of a double with an int; [None] for a NaN. *)
Definition compare_int (f : spec_float) (n : Z) : option comparison :=
  match f with
  | S754_nan => None
  | S754_infinity s => Some (if s then Lt else Gt)
  | S754_zero _ => Some (0 ?= n)
  | S754_finite s m e =>
      let v := if s then Zneg m else Zpos m in
      Some (if 0 <=? e then (v * 2 ^ e ?= n) else (v ?= n * 2 ^ (- e)))
  end.

(** The exact value of a finite double. *)
Definition value (f : spec_float) : option Q :=
  match f with
  | S754_zero _ => Some (inject_Z 0)
  | S754_finite s m e =>
      let v := if s then Zneg m else Zpos m in
      Some (if 0 <=? e then inject_Z (v * 2 ^ e) else Qmake v (Z.to_pos (2 ^ (- e))))
  | _ => None
  end.

End Float.

(** A Python number: the value of [reduction] is the int [0] or a float. *)
Inductive pynum : Type :=
| PyInt (z : Z)
| PyFloat (f : spec_float).

Definition py_compare (x y : pynum) : option comparison :=
  match x, y with
  | PyInt a, PyInt b => Some (a ?= b)
  | PyFloat f, PyInt b => Float.compare_int f b
  | PyInt a, PyFloat g => option_map CompOpp (Float.compare_int g a)
  | PyFloat f, PyFloat g => SFcompare f g
  end.

(** [x >= y] *)
Definition py_ge (x y : pynum) : bool :=
  match py_compare x y with
  | Some Gt | Some Eq => true
  | _ => false
  end.

Definition to_float (x : pynum) : res spec_float :=
  match x with
  | PyInt z => Float.of_int z
  | PyFloat f => Ok f
  end.

(** [x + y] *)
Definition py_add (x y : pynum) : res pynum :=
  match x, y with
  | PyInt a, PyInt b => Ok (PyInt (a + b))
  | _, _ =>
      res_bind (to_float x) (fun f =>
      res_bind (to_float y) (fun g =>
      Ok (PyFloat (Float.add f g))))
  end.

(** [x * y] *)
Definition py_mul (x y : pynum) : res pynum :=
  match x, y with
  | PyInt a, PyInt b => Ok (PyInt (a * b))
  | _, _ =>
      res_bind (to_float x) (fun f =>
      res_bind (to_float y) (fun g =>
      Ok (PyFloat (Float.mul f g))))
  end.

(** [x / y] *)
Definition py_truediv (x y : pynum) : res pynum :=
  match x, y with
  | PyInt a, PyInt b =>
      res_bind (Float.int_true_divide a b) (fun q => Ok (PyFloat q))
  | _, _ =>
      res_bind (to_float x) (fun f =>
      res_bind (to_float y) (fun g =>
      if Float.is_zero g then Err ZeroDivisionError
      else Ok (PyFloat (Float.div f g))))
  end.

(** [sum(xs)]: from the int [0], left to right. *)
Fixpoint py_sum_from (acc : pynum) (xs : list pynum) : res pynum :=
  match xs with
  | [] => Ok acc
  | x :: xs' => res_bind (py_add acc x) (fun acc' => py_sum_from acc' xs')
  end.

Definition py_sum (xs : list pynum) : res pynum := py_sum_from (PyInt 0) xs.

(** ** Decoded JSON *)

(** What [json.loads] returns: None, bool, int, float, str, list, dict.
    A dict is kept as its items in insertion order. *)
#[local] Unset Elimination Schemes.
Inductive json : Type :=
| JNull
| JBool (b : bool)
| JInt (z : Z)
| JFloat (f : spec_float)
| JStr (s : string)
| JArr (items : list json)
| JObj (members : list (string * json)).
#[local] Set Elimination Schemes.

Fixpoint assoc {A} (key : string) (members : list (string * A)) : option A :=
  match members with
  | [] => None
  | (k, v) :: rest => if String.eqb k key then Some v else assoc key rest
  end.

(** [v[key]] for a str key *)
Definition getitem (v : json) (key : string) : res json :=
  match v with
  | JObj members =>
      match assoc key members with
      | Some x => Ok x
      | None => Err (KeyError key)
      end
  | _ => Err TypeError
  end.

(** The items a [for] loop over [v] visits: the elements of a list, the
    characters of a str, the keys of a dict. *)
Definition iterate (v : json) : res (list json) :=
  match v with
  | JArr items => Ok items
  | JStr s => Ok (map (fun c => JStr (String c EmptyString)) (list_ascii_of_string s))
  | JObj members => Ok (map (fun kv => JStr (fst kv)) members)
  | _ => Err TypeError
  end.

(** [Path(v)] accepts a str only. *)
Definition as_path (v : json) : res string :=
  match v with
  | JStr s => Ok s
  | _ => Err TypeError
  end.

(** The number behind a JSON value in arithmetic; bool is a subclass of int. *)
Definition as_number (v : json) : res pynum :=
  match v with
  | JBool b => Ok (PyInt (if b then 1 else 0))
  | JInt z => Ok (PyInt z)
  | JFloat f => Ok (PyFloat f)
  | _ => Err TypeError
  end.

(** The number [format(v, ".1f")] renders: ValueError for a str, TypeError
    for None, a list or a dict. *)
Definition format_operand (v : json) : res pynum :=
  match v with
  | JStr _ => Err ValueError
  | _ => as_number v
  end.

Definition json_of_number (x : pynum) : json :=
  match x with
  | PyInt z => JInt z
  | PyFloat f => JFloat f
  end.

(** ** Statements *)

(** The file system as the script sees it: the entries of a directory
    ([None] when the path does not exist) and what [read_text] gives. *)
Record filesystem : Type := {
  entries : string -> option (list string);
  content : string -> res string
}.

Record state : Type := {
  stdout : list string;
  disk : filesystem
}.

(** How a statement ends: normally, by an [Exception], or by [SystemExit],
    which [except Exception] does not catch. *)
Inductive outcome (A : Type) : Type :=
| Ret (a : A)
| Raise (e : exn)
| SysExit (code : Z).
Arguments Ret {A} a.
Arguments Raise {A} e.
Arguments SysExit {A} code.

Definition M (A : Type) : Type := state -> outcome A * state.

Definition ret {A} (a : A) : M A := fun s => (Ret a, s).

Definition bind {A B} (c : M A) (k : A -> M B) : M B :=
  fun s =>
    match c s with
    | (Ret a, s') => k a s'
    | (Raise e, s') => (Raise e, s')
    | (SysExit code, s') => (SysExit code, s')
    end.

Notation "x <- c ;; k" := (bind c (fun x => k))
  (at level 61, c at next level, right associativity).
Notation "c ;; k" := (bind c (fun _ => k))
  (at level 61, right associativity).

Definition lift {A} (r : res A) : M A :=
  fun s =>
    match r with
    | Ok a => (Ret a, s)
    | Err e => (Raise e, s)
    end.

Definition sys_exit {A} (code : Z) : M A := fun s => (SysExit code, s).

(** [try: body except Exception as e: handler e] *)
Definition try_except {A} (body : M A) (handler : exn -> M A) : M A :=
  fun s =>
    match body s with
    | (Raise e, s') => handler e s'
    | r => r
    end.

Definition print (line : string) : M unit :=
  fun s => (Ret tt, {| stdout := stdout s ++ [line]; disk := disk s |}).

Definition read_text (path : string) : M string :=
  fun s => lift (content (disk s) path) s.

Definition write_file (path text : string) (d : filesystem) : filesystem :=
  {| entries := entries d;
     content := fun p => if String.eqb p path then Ok text else content d p |}.

Definition write_text (path text : string) : M unit :=
  fun s => (Ret tt, {| stdout := stdout s; disk := write_file path text (disk s) |}).

Definition path_exists (path : string) : M bool :=
  fun s =>
    match entries (disk s) path with
    | Some _ => (Ret true, s)
    | None => (Ret false, s)
    end.

Definition ends_with (suffix s : string) : bool :=
  let n := String.length s in
  let k := String.length suffix in
  (k <=? n)%nat && String.eqb (substring (n - k) k s) suffix.

(** [dir.glob("*.json")]: the entries whose name ends in [.json], in the
    order the directory gives them. *)
Definition glob_json (dir : string) : M (list string) :=
  fun s =>
    match entries (disk s) dir with
    | Some names => (Ret (filter (ends_with ".json") names), s)
    | None => (Ret [], s)
    end.

(** [sorted]: paths of one directory compare as their names do.  The order
    on names is total and antisymmetric, so every sorting algorithm returns
    this list ([strongly_sorted_unique] below). *)
Fixpoint insert_sorted (x : string) (l : list string) : list string :=
  match l with
  | [] => [x]
  | y :: l' => if String.leb x y then x :: l else y :: insert_sorted x l'
  end.

Fixpoint sorted (l : list string) : list string :=
  match l with
  | [] => []
  | x :: l' => insert_sorted x (sorted l')
  end.

Definition len {A} (l : list A) : Z := Z.of_nat (List.length l).

Definition newline : string := String (ascii_of_nat 10) EmptyString.

Fixpoint repeat_string (s : string) (n : nat) : string :=
  match n with
  | O => EmptyString
  | S n' => (s ++ repeat_string s n')%string
  end.

Definition rule : string := repeat_string "=" 100.

(** *** Statements that only read the disk *)

(** The result of a statement on a disk, taken from a run that starts with
    nothing printed.  The last case does not occur for the statements this is
    used on, which never exit. *)
Definition pure_of {A} (c : M A) (d : filesystem) : res A :=
  match fst (c {| stdout := []; disk := d |}) with
  | Ret a => Ok a
  | Raise e => Err e
  | SysExit _ => Err TypeError
  end.

(** [readonly c]: the statement neither prints nor writes nor exits, and its
    result depends on the disk alone. *)
Definition readonly {A} (c : M A) : Prop :=
  forall s, c s = lift (pure_of c (disk s)) s.

(** ** The script *)

(** The result of one scenario: the dict [run_scenario] returns. *)
Record scenario_result : Type := {
  scenario : json;
  description : json;
  baseline_tokens : Z;
  skill_tokens : Z;
  reduction_percentage : pynum;
  expected_reduction : json;
  meets_expectation : bool
}.

(** A tiktoken encoding: [encode] gives the tokens of a text or raises. *)
Definition encoding : Type := string -> res (list Z).

(** Two tokenizer libraries give the same encoding for [model]. *)
Definition agree_on_model (model : string) (enc1 enc2 : string -> res encoding) : Prop :=
  match enc1 model, enc2 model with
  | Ok e1, Ok e2 => forall text, e1 text = e2 text
  | Err x, Err y => x = y
  | _, _ => False
  end.

(** ** A concrete setting

    A tokenizer, a decoder, renderings and a few disks on which the script can
    be run inside Rocq.  The renderings are exact on the values that occur in
    these runs: strings, ints and the floats of the reports. *)
Module Example.

(** One token per character. *)
Definition char_encoding : encoding :=
  fun text => Ok (map (fun c => Z.of_N (N_of_ascii c)) (list_ascii_of_string text)).

Definition encoding_for_model (model : string) : res encoding :=
  if String.eqb model "gpt-4" then Ok char_encoding else Err (KeyError model).

Definition scenario_json (name descr : string) (baseline skills : list string)
           (expected : json) : json :=
  JObj [ ("name", JStr name);
         ("description", JStr descr);
         ("baseline", JObj [ ("files", JArr (map JStr baseline)) ]);
         ("skills", JObj [ ("files", JArr (map JStr skills)) ]);
         ("expectedReduction", expected) ].

Definition scenario_a : json :=
  scenario_json "A" "two modules against one skill"
                ["docs/a1.md"; "docs/a2.md"] ["skills/a.md"] (JInt 50).
Definition scenario_b : json :=
  scenario_json "B" "no reduction" ["docs/b.md"] ["skills/b.md"] (JInt 10).
Definition scenario_c : json :=
  scenario_json "C" "empty baseline" [] ["skills/a.md"] (JInt 0).
Definition scenario_d : json :=
  scenario_json "D" "missing baseline file" ["docs/missing.md"] ["skills/a.md"] (JInt 10).

(** The scenario files hold the texts A, B, C and D. *)
Definition json_loads (text : string) : res json :=
  if String.eqb text "A" then Ok scenario_a
  else if String.eqb text "B" then Ok scenario_b
  else if String.eqb text "C" then Ok scenario_c
  else if String.eqb text "D" then Ok scenario_d
  else Err (LibraryError "Expecting value: line 1 column 1 (char 0)").

Definition texts : list (string * string) :=
  [ ("benchmarks/scenarios/a.json", "A");
    ("benchmarks/scenarios/b.json", "B");
    ("benchmarks/scenarios/c.json", "C");
    ("benchmarks/scenarios/d.json", "D");
    ("docs/a1.md", repeat_string "x" 600);
    ("docs/a2.md", repeat_string "y" 400);
    ("docs/b.md", repeat_string "z" 500);
    ("skills/a.md", repeat_string "s" 400);
    ("skills/b.md", repeat_string "t" 500) ].

Definition read (files : list (string * string)) (path : string) : res string :=
  match assoc path files with
  | Some text => Ok text
  | None => Err (LibraryError ("[Errno 2] No such file or directory: '" ++ path ++ "'"))
  end.

(** A disk whose scenarios directory lists [names]. *)
Definition disk_of (names : option (list string)) : filesystem :=
  {| entries := fun p => if String.eqb p "benchmarks/scenarios" then names else None;
     content := read texts |}.

Definition start (names : option (list string)) : state :=
  {| stdout := []; disk := disk_of names |}.

Definition str_int (z : Z) : string := DecimalString.NilZero.string_of_int (Z.to_int z).

Fixpoint group3 (rev_digits : list ascii) (k : nat) : list ascii :=
  match rev_digits with
  | [] => []
  | c :: rest =>
      if Nat.eqb k 3 then ","%char :: c :: group3 rest 1
      else c :: group3 rest (S k)
  end.

Definition format_comma (z : Z) : string :=
  let digits := list_ascii_of_string (str_int (Z.abs z)) in
  let grouped := string_of_list_ascii (rev (group3 (rev digits) 0)) in
  if z <? 0 then ("-" ++ grouped)%string else grouped.

(** The nearest integer to [10 * m * 2 ^ e], ties to even. *)
Definition tenths (m : positive) (e : Z) : Z :=
  if 0 <=? e then 10 * Zpos m * 2 ^ e
  else
    let d := 2 ^ (- e) in
    let q := (10 * Zpos m) / d in
    let r := (10 * Zpos m) mod d in
    match 2 * r ?= d with
    | Lt => q
    | Gt => q + 1
    | Eq => if Z.even q then q else q + 1
    end.

Definition format_1f (x : pynum) : string :=
  match x with
  | PyInt z => (str_int z ++ ".0")%string
  | PyFloat S754_nan => "nan"
  | PyFloat (S754_infinity s) => if s then "-inf" else "inf"
  | PyFloat (S754_zero s) => if s then "-0.0" else "0.0"
  | PyFloat (S754_finite s m e) =>
      let t := tenths m e in
      ((if s then "-" else EmptyString) ++ str_int (t / 10) ++ "." ++ str_int (t mod 10))%string
  end.

Definition str_json (v : json) : string :=
  match v with
  | JNull => "None"
  | JBool b => if b then "True" else "False"
  | JInt z => str_int z
  | JFloat f => format_1f (PyFloat f)
  | JStr s => s
  | JArr _ => "[...]"
  | JObj _ => "{...}"
  end.

Definition str_exn (e : exn) : string :=
  match e with
  | ZeroDivisionError => "division by zero"
  | OverflowError => "integer division result too large for a float"
  | KeyError key => ("'" ++ key ++ "'")%string
  | TypeError => "unsupported operand"
  | ValueError => "invalid value"
  | LibraryError text => text
  end.

Fixpoint join (sep : string) (l : list string) : string :=
  match l with
  | [] => EmptyString
  | [x] => x
  | x :: rest => (x ++ sep ++ join sep rest)%string
  end.

(** A compact rendering of a JSON document. *)
Fixpoint json_dumps (v : json) : string :=
  match v with
  | JNull => "null"
  | JBool b => if b then "true" else "false"
  | JInt z => str_int z
  | JFloat f => format_1f (PyFloat f)
  | JStr s => (String (ascii_of_nat 34) s ++ String (ascii_of_nat 34) EmptyString)%string
  | JArr items => ("[" ++ join ", " (map json_dumps items) ++ "]")%string
  | JObj members =>
      ("{" ++ join ", " (map (fun kv => (String (ascii_of_nat 34) (fst kv)
                                          ++ String (ascii_of_nat 34) ": "
                                          ++ json_dumps (snd kv))%string) members)
           ++ "}")%string
  end.

(** The results the scenarios A and B evaluate to: 60.0 and 0.0 percent. *)
Definition result_a : scenario_result :=
  {| scenario := JStr "A";
     description := JStr "two modules against one skill";
     baseline_tokens := 1000;
     skill_tokens := 400;
     reduction_percentage := PyFloat (S754_finite false 8444249301319680 (-47));
     expected_reduction := JInt 50;
     meets_expectation := true |}.

Definition result_b : scenario_result :=
  {| scenario := JStr "B";
     description := JStr "no reduction";
     baseline_tokens := 500;
     skill_tokens := 500;
     reduction_percentage := PyFloat (S754_zero false);
     expected_reduction := JInt 10;
     meets_expectation := false |}.

(** A tokenizer library that knows one encoding for every model. *)
Definition any_model (model : string) : res encoding := Ok char_encoding.

End Example.

(** Further descriptors: skills larger than the baseline, a threshold of 0,
    a NaN threshold, and a document that is a list. *)
Module MoreExamples.

Definition scenario_e : json :=
  Example.scenario_json "E" "skills larger than the baseline"
                        ["skills/a.md"] ["docs/a1.md"] (JInt 5).
Definition scenario_z : json :=
  Example.scenario_json "Z" "any reduction will do"
                        ["docs/a1.md"] ["skills/a.md"] (JInt 0).
Definition scenario_n : json :=
  Example.scenario_json "N" "threshold that is not a number"
                        ["docs/a1.md"] ["skills/a.md"] (JFloat S754_nan).

Definition json_loads (text : string) : res json :=
  if String.eqb text "E" then Ok scenario_e
  else if String.eqb text "Z" then Ok scenario_z
  else if String.eqb text "N" then Ok scenario_n
  else if String.eqb text "L" then Ok (JArr [])
  else Example.json_loads text.

Definition texts : list (string * string) :=
  [ ("benchmarks/scenarios/e.json", "E");
    ("benchmarks/scenarios/z.json", "Z");
    ("benchmarks/scenarios/n.json", "N");
    ("benchmarks/scenarios/l.json", "L") ] ++ Example.texts.

Definition disk : filesystem :=
  {| entries := fun p =>
       if String.eqb p "benchmarks/scenarios"
       then Some ["e.json"; "z.json"; "n.json"; "l.json"]
       else None;
     content := Example.read texts |}.

(** The results of E, Z and N: reductions -50.0 and 33.33... percent. *)
Definition result_e : scenario_result :=
  {| scenario := JStr "E";
     description := JStr "skills larger than the baseline";
     baseline_tokens := 400;
     skill_tokens := 600;
     reduction_percentage := PyFloat (S754_finite true 7036874417766400 (-47));
     expected_reduction := JInt 5;
     meets_expectation := false |}.

Definition result_z : scenario_result :=
  {| scenario := JStr "Z";
     description := JStr "any reduction will do";
     baseline_tokens := 600;
     skill_tokens := 400;
     reduction_percentage := PyFloat (S754_finite false 4691249611844266 (-47));
     expected_reduction := JInt 0;
     meets_expectation := true |}.

Definition result_n : scenario_result :=
  {| scenario := JStr "N";
     description := JStr "threshold that is not a number";
     baseline_tokens := 600;
     skill_tokens := 400;
     reduction_percentage := PyFloat (S754_finite false 4691249611844266 (-47));
     expected_reduction := JFloat S754_nan;
     meets_expectation := false |}.

End MoreExamples.

Section Runner.

(** [tiktoken.encoding_for_model] *)
Variable encoding_for_model : string -> res encoding.
(** [json.loads] and [json.dumps(_, indent=2)] *)
Variable json_loads : string -> res json.
Variable json_dumps : json -> string.
(** [str(e)] of an exception, [str(n)] of an int, [format(v)] of a
    decoded JSON value, [format(n, ",")] and [format(x, ".1f")]. *)
Variable str_exn : exn -> string.
Variable str_int : Z -> string.
Variable str_json : json -> string.
Variable format_comma : Z -> string.
Variable format_1f : pynum -> string.

Definition default_model : string := "gpt-4".

(** def count_tokens(file_path, model="gpt-4") *)
Definition count_tokens_with (file_path : json) (model : string) : M Z :=
  encoding <- lift (encoding_for_model model) ;;
  path <- lift (as_path file_path) ;;
  content <- read_text path ;;
  tokens <- lift (encoding content) ;;
  ret (len tokens).

Definition count_tokens (file_path : json) : M Z :=
  count_tokens_with file_path default_model.

(** [sum(count_tokens(f) for f in files)] *)
Fixpoint sum_tokens_from (acc : Z) (files : list json) : M Z :=
  match files with
  | [] => ret acc
  | f :: rest =>
      n <- count_tokens f ;;
      sum_tokens_from (acc + n) rest
  end.

Definition sum_tokens (files : list json) : M Z := sum_tokens_from 0 files.

(** The conditional expression that computes [reduction]. *)
Definition reduction_of (baseline_tokens skill_tokens : Z) : res pynum :=
  if baseline_tokens >? 0 then
    res_bind (py_truediv (PyInt (baseline_tokens - skill_tokens)) (PyInt baseline_tokens))
      (fun q => py_mul q (PyInt 100))
  else Ok (PyInt 0).

(** [reduction >= expected], TypeError when [expected] is not a number. *)
Definition ge_expected (reduction : pynum) (expected : json) : res bool :=
  res_bind (as_number expected) (fun e => Ok (py_ge reduction e)).

(** The files a [for f in scenario[side]["files"]] visits. *)
Definition files_of (scenario : json) (side : string) : res (list json) :=
  res_bind (res_bind (getitem scenario side) (fun b => getitem b "files")) iterate.

(** The end of [run_scenario]: the reduction and the dict it returns. *)
Definition make_result (scenario : json) (baseline_tokens skill_tokens : Z)
  : res scenario_result :=
  res_bind (reduction_of baseline_tokens skill_tokens) (fun reduction =>
  res_bind (getitem scenario "name") (fun name =>
  res_bind (getitem scenario "description") (fun descr =>
  res_bind (getitem scenario "expectedReduction") (fun expected =>
  res_bind (getitem scenario "expectedReduction") (fun threshold =>
  res_bind (ge_expected reduction threshold) (fun meets =>
  Ok {| scenario := name;
        description := descr;
        baseline_tokens := baseline_tokens;
        skill_tokens := skill_tokens;
        reduction_percentage := reduction;
        expected_reduction := expected;
        meets_expectation := meets |})))))).

Definition run_scenario (scenario_file : string) : M scenario_result :=
  text <- read_text scenario_file ;;
  scenario <- lift (json_loads text) ;;
  baseline_files <- lift (files_of scenario "baseline") ;;
  baseline_tokens <- sum_tokens baseline_files ;;
  skill_files <- lift (files_of scenario "skills") ;;
  skill_tokens <- sum_tokens skill_files ;;
  lift (make_result scenario baseline_tokens skill_tokens).

Definition status_text (r : scenario_result) : string :=
  if meets_expectation r then "✓ PASS" else "✗ FAIL".

(** The body of the loop of [print_results]. *)
Definition print_result (r : scenario_result) : M unit :=
  print (newline ++ str_json (scenario r)) ;;
  print ("  Description: " ++ str_json (description r)) ;;
  print ("  Baseline:    " ++ format_comma (baseline_tokens r) ++ " tokens") ;;
  print ("  Skills:      " ++ format_comma (skill_tokens r) ++ " tokens") ;;
  print ("  Reduction:   " ++ format_1f (reduction_percentage r) ++ "%") ;;
  expected <- lift (format_operand (expected_reduction r)) ;;
  print ("  Expected:    " ++ format_1f expected ++ "%") ;;
  print ("  Status:      " ++ status_text r).

Fixpoint for_each {A} (body : A -> M unit) (l : list A) : M unit :=
  match l with
  | [] => ret tt
  | x :: l' => body x ;; for_each body l'
  end.

(** [sum(r["reduction_percentage"] for r in results) / len(results)] *)
Definition average_reduction (results : list scenario_result) : res pynum :=
  res_bind (py_sum (map reduction_percentage results))
    (fun total => py_truediv total (PyInt (len results))).

(** [sum(1 for r in results if r["meets_expectation"])] *)
Definition count_passed (results : list scenario_result) : Z :=
  len (filter meets_expectation results).

Definition overall_text (passed total : Z) : string :=
  if passed =? total then "✓ ALL PASS" else "✗ SOME FAILED".

Definition print_results (results : list scenario_result) : M unit :=
  print (newline ++ rule) ;;
  print "TOKEN REDUCTION BENCHMARK RESULTS" ;;
  print rule ;;
  for_each print_result results ;;
  avg_reduction <- lift (average_reduction results) ;;
  let passed := count_passed results in
  print (newline ++ rule) ;;
  print "SUMMARY" ;;
  print rule ;;
  print ("  Total Scenarios:    " ++ str_int (len results)) ;;
  print ("  Passed:             " ++ str_int passed ++ "/" ++ str_int (len results)) ;;
  print ("  Average Reduction:  " ++ format_1f avg_reduction ++ "%") ;;
  print ("  Overall Status:     " ++ overall_text passed (len results)) ;;
  print (rule ++ newline).

Definition json_of_result (r : scenario_result) : json :=
  JObj [ ("scenario", scenario r);
         ("description", description r);
         ("baseline_tokens", JInt (baseline_tokens r));
         ("skill_tokens", JInt (skill_tokens r));
         ("reduction_percentage", json_of_number (reduction_percentage r));
         ("expected_reduction", expected_reduction r);
         ("meets_expectation", JBool (meets_expectation r)) ].

(** The dict [output] of [export_json]. *)
Definition export_record (results : list scenario_result) (avg : pynum) : json :=
  JObj [ ("results", JArr (map json_of_result results));
         ("summary",
          JObj [ ("total_scenarios", JInt (len results));
                 ("passed", JInt (count_passed results));
                 ("average_reduction", json_of_number avg) ]) ].

Definition export_json (results : list scenario_result) (output_file : string) : M unit :=
  avg <- lift (average_reduction results) ;;
  write_text output_file (json_dumps (export_record results avg)) ;;
  print ("Results exported to: " ++ output_file).

Definition scenarios_dir : string := "benchmarks/scenarios".
Definition results_file : string := "benchmarks/results.json".

(** [str(scenario_file)] for an entry of the scenarios directory. *)
Definition scenario_path (name : string) : string :=
  (scenarios_dir ++ "/" ++ name)%string.

(** One turn of the loop of [main]. *)
Definition run_one (scenario_file : string) (results : list scenario_result)
  : M (list scenario_result) :=
  try_except
    (result <- run_scenario (scenario_path scenario_file) ;;
     ret (results ++ [result]))
    (fun e =>
       print ("Error running scenario " ++ scenario_path scenario_file ++ ": " ++ str_exn e) ;;
       ret results).

Fixpoint run_all (scenario_files : list string) (results : list scenario_result)
  : M (list scenario_result) :=
  match scenario_files with
  | [] => ret results
  | f :: rest =>
      results' <- run_one f results ;;
      run_all rest results'
  end.

Definition main : M unit :=
  found <- path_exists scenarios_dir ;;
  if negb found then
    print ("Error: Scenarios directory not found: " ++ scenarios_dir) ;;
    print "Please create benchmark scenarios first." ;;
    sys_exit 1
  else
    listing <- glob_json scenarios_dir ;;
    let scenario_files := sorted listing in
    match scenario_files with
    | [] =>
        print ("Error: No scenario files found in " ++ scenarios_dir) ;;
        sys_exit 1
    | _ =>
        print ("Found " ++ str_int (len scenario_files) ++ " benchmark scenarios") ;;
        results <- run_all scenario_files [] ;;
        print_results results ;;
        export_json results results_file ;;
        let all_passed := forallb meets_expectation results in
        sys_exit (if all_passed then 0 else 1)
    end.

(** ** What the script is observed to do *)

(** The result of [run_scenario] on a disk. *)
Definition evaluate (d : filesystem) (scenario_file : string) : res scenario_result :=
  pure_of (run_scenario scenario_file) d.

(** What a successful evaluation went through. *)
Inductive evaluation (d : filesystem) (scenario_file : string) (r : scenario_result) : Prop :=
| Evaluation (text : string) (sc : json) (baseline_files skill_files : list json)
    (ev_read : content d scenario_file = Ok text)
    (ev_loads : json_loads text = Ok sc)
    (ev_baseline : files_of sc "baseline" = Ok baseline_files)
    (ev_baseline_sum : pure_of (sum_tokens baseline_files) d = Ok (baseline_tokens r))
    (ev_skills : files_of sc "skills" = Ok skill_files)
    (ev_skills_sum : pure_of (sum_tokens skill_files) d = Ok (skill_tokens r))
    (ev_reduction : reduction_of (baseline_tokens r) (skill_tokens r)
                    = Ok (reduction_percentage r))
    (ev_name : getitem sc "name" = Ok (scenario r))
    (ev_description : getitem sc "description" = Ok (description r))
    (ev_expected : getitem sc "expectedReduction" = Ok (expected_reduction r))
    (ev_meets : ge_expected (reduction_percentage r) (expected_reduction r)
                = Ok (meets_expectation r)).

Definition printed (s : state) (lines : list string) : state :=
  {| stdout := stdout s ++ lines; disk := disk s |}.

(** The results of the scenarios that evaluate, in the order of [files]. *)
Definition successes (d : filesystem) (files : list string) : list scenario_result :=
  flat_map (fun f => match evaluate d (scenario_path f) with
                     | Ok r => [r]
                     | Err _ => []
                     end) files.

Definition error_line (f : string) (e : exn) : string :=
  "Error running scenario " ++ scenario_path f ++ ": " ++ str_exn e.

(** The lines printed for the scenarios that raise, in the order of [files]. *)
Definition error_lines (d : filesystem) (files : list string) : list string :=
  flat_map (fun f => match evaluate d (scenario_path f) with
                     | Ok _ => []
                     | Err e => [error_line f e]
                     end) files.

(** A result as [run_scenario] builds it: [expected_reduction] is a
    number, [reduction_percentage] is the int 0 or a float. *)
Definition well_formed (r : scenario_result) : Prop :=
  (exists n, as_number (expected_reduction r) = Ok n) /\
  (reduction_percentage r = PyInt 0 \/ exists f, reduction_percentage r = PyFloat f).

Definition expected_number (r : scenario_result) : pynum :=
  match as_number (expected_reduction r) with
  | Ok n => n
  | Err _ => PyInt 0
  end.

(** The block [print_results] prints for one result. *)
Definition result_lines (r : scenario_result) : list string :=
  [ (newline ++ str_json (scenario r))%string;
    ("  Description: " ++ str_json (description r))%string;
    ("  Baseline:    " ++ format_comma (baseline_tokens r) ++ " tokens")%string;
    ("  Skills:      " ++ format_comma (skill_tokens r) ++ " tokens")%string;
    ("  Reduction:   " ++ format_1f (reduction_percentage r) ++ "%")%string;
    ("  Expected:    " ++ format_1f (expected_number r) ++ "%")%string;
    ("  Status:      " ++ status_text r)%string ].

Definition header_lines : list string :=
  [ (newline ++ rule)%string; "TOKEN REDUCTION BENCHMARK RESULTS"; rule ].

Definition summary_lines (results : list scenario_result) (avg : pynum) : list string :=
  [ (newline ++ rule)%string;
    "SUMMARY";
    rule;
    ("  Total Scenarios:    " ++ str_int (len results))%string;
    ("  Passed:             " ++ str_int (count_passed results) ++ "/"
       ++ str_int (len results))%string;
    ("  Average Reduction:  " ++ format_1f avg ++ "%")%string;
    ("  Overall Status:     " ++ overall_text (count_passed results) (len results))%string;
    (rule ++ newline)%string ].

(** The state after a successful [export_json]. *)
Definition exported (s : state) (results : list scenario_result) (avg : pynum)
           (output_file : string) : state :=
  {| stdout := stdout s ++ [("Results exported to: " ++ output_file)%string];
     disk := write_file output_file (json_dumps (export_record results avg)) (disk s) |}.

Definition reduction_like (x : pynum) : Prop :=
  x = PyInt 0 \/ exists f, x = PyFloat f.

Definition found_line (files : list string) : string :=
  "Found " ++ str_int (len files) ++ " benchmark scenarios".

(** What [main] does from a state, by cases on the disk. *)
Definition main_outcome (s : state) : outcome unit * state :=
  match entries (disk s) scenarios_dir with
  | None =>
      (SysExit 1,
       printed s [ ("Error: Scenarios directory not found: " ++ scenarios_dir)%string;
                   "Please create benchmark scenarios first." ])
  | Some names =>
      match sorted (filter (ends_with ".json") names) with
      | [] =>
          (SysExit 1,
           printed s [ ("Error: No scenario files found in " ++ scenarios_dir)%string ])
      | files =>
          let results := successes (disk s) files in
          let s1 := printed s (found_line files :: error_lines (disk s) files) in
          match average_reduction results with
          | Err e =>
              (Raise e, printed s1 (header_lines ++ flat_map result_lines results))
          | Ok avg =>
              (SysExit (if forallb meets_expectation results then 0 else 1),
               exported (printed s1 (header_lines ++ flat_map result_lines results
                                       ++ summary_lines results avg))
                        results avg results_file)
          end
      end
  end.

(** The script itself: [main] runs when the import of tiktoken succeeded. *)
Definition script (tiktoken_installed : bool) : M unit :=
  if tiktoken_installed then main
  else
    print "Error: tiktoken not installed. Install with: pip install tiktoken" ;;
    sys_exit 1.

(** The exit status of the process: the argument of [sys.exit], or 1 when an
    exception reaches the top level. *)
Definition exit_status {A} (o : outcome A) : Z :=
  match o with
  | Ret _ => 0
  | Raise _ => 1
  | SysExit code => code
  end.

(** The scenario files [main] loops over, in its order. *)
Definition discovered (d : filesystem) : list string :=
  match entries d scenarios_dir with
  | Some names => sorted (filter (ends_with ".json") names)
  | None => []
  end.

(** The list [results] of [main] after its loop. *)
Definition evaluated (d : filesystem) : list scenario_result :=
  successes d (discovered d).




(** The paths among the items of a file list. *)
Definition paths_in (files : list json) : list string :=
  flat_map (fun v => match v with JStr path => [path] | _ => [] end) files.

Definition listed_paths (files : res (list json)) : list string :=
  match files with
  | Ok l => paths_in l
  | Err _ => []
  end.

(** The input files of a scenario: its descriptor and the files it lists. *)
Definition referenced_files (d : filesystem) (scenario_file : string) : list string :=
  scenario_file ::
  match res_bind (content d scenario_file) json_loads with
  | Ok sc => listed_paths (files_of sc "baseline") ++ listed_paths (files_of sc "skills")
  | Err _ => []
  end.

(** A double that is not a NaN and carries the sign bit [sign]. *)
Definition has_sign (sign : bool) (f : spec_float) : Prop :=
  match f with
  | S754_nan => False
  | S754_zero t | S754_infinity t | S754_finite t _ _ => t = sign
  end.

(** The count of one file, 0 when counting it raises. *)
Definition count_or_zero (d : filesystem) (file_path : json) : Z :=
  match pure_of (count_tokens file_path) d with
  | Ok n => n
  | Err _ => 0
  end.

(** ** Proofs *)

Lemma readonly_ret {A} (a : A) : readonly (ret a).
Proof. intro s. reflexivity. Qed.

Lemma readonly_lift {A} (r : res A) : readonly (lift r).
Proof. intro s. unfold pure_of, lift. destruct r; reflexivity. Qed.

Lemma readonly_read_text path : readonly (read_text path).
Proof.
  intro s. unfold pure_of, read_text, lift. simpl.
  destruct (content (disk s) path); reflexivity.
Qed.

Lemma pure_of_bind {A B} (c : M A) (k : A -> M B) d :
  readonly c ->
  pure_of (bind c k) d = res_bind (pure_of c d) (fun a => pure_of (k a) d).
Proof.
  intro Hc. unfold pure_of at 1. unfold bind. rewrite Hc. simpl.
  destruct (pure_of c d) as [a | e]; reflexivity.
Qed.

Lemma readonly_bind {A B} (c : M A) (k : A -> M B) :
  readonly c -> (forall a, readonly (k a)) -> readonly (bind c k).
Proof.
  intros Hc Hk s. rewrite pure_of_bind by assumption.
  unfold bind. rewrite Hc.
  destruct (pure_of c (disk s)) as [a | e]; simpl; [apply Hk | reflexivity].
Qed.

Lemma pure_of_ret {A} (a : A) d : pure_of (ret a) d = Ok a.
Proof. reflexivity. Qed.

Lemma pure_of_lift {A} (r : res A) d : pure_of (lift r) d = r.
Proof. unfold pure_of, lift. destruct r; reflexivity. Qed.

Lemma pure_of_read_text path d : pure_of (read_text path) d = content d path.
Proof. unfold pure_of, read_text, lift. simpl. destruct (content d path); reflexivity. Qed.

Ltac readonly_step :=
  first [ apply readonly_ret | apply readonly_lift | apply readonly_read_text
        | apply readonly_bind; [ | intro ] ].

Lemma count_tokens_with_readonly file_path model :
  readonly (count_tokens_with file_path model).
Proof. unfold count_tokens_with. repeat readonly_step. Qed.

Lemma count_tokens_readonly file_path : readonly (count_tokens file_path).
Proof. apply count_tokens_with_readonly. Qed.

Lemma sum_tokens_from_readonly files :
  forall acc, readonly (sum_tokens_from acc files).
Proof.
  induction files as [| f rest IH]; intro acc; simpl.
  - apply readonly_ret.
  - apply readonly_bind; [apply count_tokens_readonly | intro n; apply IH].
Qed.

Lemma sum_tokens_readonly files : readonly (sum_tokens files).
Proof. apply sum_tokens_from_readonly. Qed.

Lemma run_scenario_readonly scenario_file : readonly (run_scenario scenario_file).
Proof.
  unfold run_scenario.
  repeat first [ apply sum_tokens_readonly | readonly_step ].
Qed.

Lemma run_scenario_evaluate scenario_file s :
  run_scenario scenario_file s = lift (evaluate (disk s) scenario_file) s.
Proof. apply run_scenario_readonly. Qed.

Ltac res_case H :=
  match type of H with
  | res_bind ?x _ = _ => destruct x eqn:?; cbn [res_bind] in H; [ | discriminate ]
  end.

Ltac eval_bind H :=
  rewrite pure_of_bind in H
    by (repeat first [ apply sum_tokens_readonly | readonly_step ]);
  rewrite ?pure_of_lift, ?pure_of_read_text in H;
  res_case H.

(** [evaluate] without the monad. *)
Lemma evaluate_eq d scenario_file :
  evaluate d scenario_file =
  res_bind (content d scenario_file) (fun text =>
  res_bind (json_loads text) (fun sc =>
  res_bind (files_of sc "baseline") (fun baseline_files =>
  res_bind (pure_of (sum_tokens baseline_files) d) (fun b =>
  res_bind (files_of sc "skills") (fun skill_files =>
  res_bind (pure_of (sum_tokens skill_files) d) (fun sk =>
  make_result sc b sk)))))).
Proof.
  unfold evaluate, run_scenario.
  repeat (rewrite pure_of_bind
            by (repeat first [ apply sum_tokens_readonly | readonly_step ]);
          rewrite ?pure_of_lift, ?pure_of_read_text;
          match goal with
          | |- res_bind ?x _ = res_bind ?x _ => destruct x; simpl; [ | reflexivity ]
          end).
  apply pure_of_lift.
Qed.

Lemma evaluate_inv d scenario_file r :
  evaluate d scenario_file = Ok r -> evaluation d scenario_file r.
Proof.
  rewrite evaluate_eq. intro H.
  do 6 res_case H. unfold make_result in H. do 5 res_case H.
  injection H as <-.
  econstructor; simpl; eauto; congruence.
Qed.

Lemma evaluate_intro d scenario_file r :
  evaluation d scenario_file r -> evaluate d scenario_file = Ok r.
Proof.
  intros [text sc bf sf H1 H2 H3 H4 H5 H6 H7 H8 H9 H10 H11].
  rewrite evaluate_eq, H1. simpl. rewrite H2. simpl. rewrite H3. simpl.
  rewrite H4. simpl. rewrite H5. simpl. rewrite H6. simpl.
  unfold make_result. rewrite H7. simpl. rewrite H8. simpl. rewrite H9. simpl.
  rewrite H10. simpl. rewrite H11. simpl. destruct r; reflexivity.
Qed.

Lemma printed_nil s : printed s [] = s.
Proof. destruct s. unfold printed. simpl. rewrite app_nil_r. reflexivity. Qed.

Lemma printed_app s l1 l2 : printed (printed s l1) l2 = printed s (l1 ++ l2).
Proof. unfold printed. simpl. rewrite app_assoc. reflexivity. Qed.

Lemma print_printed line s : print line s = (Ret tt, printed s [line]).
Proof. reflexivity. Qed.

Lemma run_one_spec f results s :
  run_one f results s =
  match evaluate (disk s) (scenario_path f) with
  | Ok r => (Ret (results ++ [r]), s)
  | Err e => (Ret results, printed s [error_line f e])
  end.
Proof.
  unfold run_one, try_except, bind. rewrite run_scenario_evaluate.
  destruct (evaluate (disk s) (scenario_path f)); reflexivity.
Qed.

Lemma run_all_spec files :
  forall results s,
    run_all files results s =
    (Ret (results ++ successes (disk s) files),
     printed s (error_lines (disk s) files)).
Proof.
  induction files as [| f rest IH]; intros results s; simpl.
  - rewrite app_nil_r, printed_nil. reflexivity.
  - unfold bind. rewrite run_one_spec.
    destruct (evaluate (disk s) (scenario_path f)) as [r | e].
    + rewrite IH. rewrite <- app_assoc. reflexivity.
    + rewrite IH. simpl. rewrite printed_app. reflexivity.
Qed.

Lemma print_result_spec r s :
  well_formed r -> print_result r s = (Ret tt, printed s (result_lines r)).
Proof.
  intros [[n Hn] _].
  assert (Hf : format_operand (expected_reduction r) = Ok n).
  { unfold format_operand. destruct (expected_reduction r); try exact Hn. discriminate Hn. }
  unfold print_result, result_lines, expected_number, bind, print, lift, printed.
  rewrite Hn, Hf. simpl. repeat rewrite <- app_assoc. reflexivity.
Qed.

Lemma for_each_print_result results :
  forall s, Forall well_formed results ->
    for_each print_result results s = (Ret tt, printed s (flat_map result_lines results)).
Proof.
  induction results as [| r rest IH]; intros s Hwf; simpl.
  - rewrite printed_nil. reflexivity.
  - inversion Hwf as [| ? ? Hr Hrest]; subst.
    unfold bind. rewrite print_result_spec by assumption.
    rewrite IH by assumption. rewrite printed_app. reflexivity.
Qed.

Lemma print_results_ok results avg s :
  Forall well_formed results -> average_reduction results = Ok avg ->
  print_results results s =
  (Ret tt, printed s (header_lines ++ flat_map result_lines results
                        ++ summary_lines results avg)).
Proof.
  intros Hwf Havg. unfold print_results, bind at 1 2 3 4.
  rewrite !print_printed, !printed_app. simpl app.
  rewrite for_each_print_result by assumption.
  unfold bind, lift. rewrite Havg. rewrite !print_printed, !printed_app.
  rewrite <- ?app_assoc. reflexivity.
Qed.

Lemma print_results_raise results e s :
  Forall well_formed results -> average_reduction results = Err e ->
  print_results results s =
  (Raise e, printed s (header_lines ++ flat_map result_lines results)).
Proof.
  intros Hwf Havg. unfold print_results, bind at 1 2 3 4.
  rewrite !print_printed, !printed_app. simpl app.
  rewrite for_each_print_result by assumption.
  unfold bind, lift. rewrite Havg. rewrite !printed_app. reflexivity.
Qed.

Lemma export_json_ok results avg output_file s :
  average_reduction results = Ok avg ->
  export_json results output_file s = (Ret tt, exported s results avg output_file).
Proof.
  intro Havg. unfold export_json, bind, lift. rewrite Havg. reflexivity.
Qed.

Lemma reduction_of_like b sk x : reduction_of b sk = Ok x -> reduction_like x.
Proof.
  unfold reduction_of. destruct (b >? 0).
  - unfold py_truediv. destruct (Float.int_true_divide (b - sk) b) as [q | e]; simpl.
    + intro H. injection H as <-. right. eexists. reflexivity.
    + discriminate.
  - intro H. injection H as <-. left. reflexivity.
Qed.

Lemma evaluate_well_formed d f r : evaluate d f = Ok r -> well_formed r.
Proof.
  intro H. apply evaluate_inv in H. destruct H. split.
  - unfold ge_expected in ev_meets.
    destruct (as_number (expected_reduction r)) as [n | e]; [eauto | discriminate].
  - eapply reduction_of_like; eassumption.
Qed.

Lemma successes_well_formed d files : Forall well_formed (successes d files).
Proof.
  unfold successes. induction files as [| f rest IH]; simpl.
  - constructor.
  - destruct (evaluate d (scenario_path f)) eqn:E; simpl; [| assumption].
    constructor; [eapply evaluate_well_formed; eassumption | assumption].
Qed.

Lemma main_spec s : main s = main_outcome s.
Proof.
  unfold main, main_outcome, bind at 1, path_exists.
  destruct (entries (disk s) scenarios_dir) as [names |] eqn:Hdir;
    cbn [negb]; cbv iota.
  - unfold bind at 1, glob_json. rewrite Hdir.
    destruct (sorted (filter (ends_with ".json") names)) as [| f files] eqn:Hfiles.
    + reflexivity.
    + set (fs := f :: files).
      unfold bind at 1. rewrite print_printed.
      unfold bind at 1. rewrite run_all_spec. simpl app.
      rewrite printed_app. simpl app. simpl disk.
      pose proof (successes_well_formed (disk s) fs) as Hwf.
      destruct (average_reduction (successes (disk s) fs)) as [avg | e] eqn:Havg.
      * unfold bind at 1. rewrite (print_results_ok _ avg) by assumption.
        unfold bind at 1. rewrite (export_json_ok _ avg) by assumption.
        reflexivity.
      * unfold bind at 1. rewrite (print_results_raise _ e) by assumption.
        reflexivity.
  - unfold bind, sys_exit. rewrite !print_printed, printed_app. reflexivity.
Qed.

(** *** Conversion of a count to float *)



Lemma shr_1_m r : 0 <= shr_m r -> shr_m (shr_1 r) = shr_m r / 2.
Proof.
  destruct r as [m b c]. cbn [shr_m]. intro H.
  destruct m as [| [p | p |] | p]; cbn [shr_1 shr_m]; try lia; try reflexivity.
  - apply Z.div_unique with (r := 1); lia.
  - apply Z.div_unique with (r := 0); lia.
Qed.

Lemma iter_pos_shr_1 p : forall r, 0 <= shr_m r ->
  shr_m (iter_pos shr_1 p r) = shr_m r / 2 ^ Zpos p.
Proof.
  induction p as [p IH | p IH |]; intros r Hr; simpl iter_pos.
  - assert (H1 : 0 <= shr_m (shr_1 r)) by (rewrite shr_1_m by assumption; apply Z.div_pos; lia).
    assert (H2 : 0 <= shr_m (iter_pos shr_1 p (shr_1 r))) by (rewrite IH by assumption; apply Z.div_pos; lia).
    rewrite IH, IH, shr_1_m by assumption.
    rewrite !Z.div_div by lia. f_equal. rewrite Pos2Z.inj_xI.
    rewrite <- !Z.pow_add_r by lia. change 2 with (2 ^ 1) at 1. rewrite <- Z.pow_add_r by lia. f_equal. lia.
  - assert (H2 : 0 <= shr_m (iter_pos shr_1 p r)) by (rewrite IH by assumption; apply Z.div_pos; lia).
    rewrite IH, IH by assumption.
    rewrite !Z.div_div by lia. f_equal. rewrite Pos2Z.inj_xO.
    rewrite <- !Z.pow_add_r by lia. f_equal. lia.
  - rewrite shr_1_m by assumption. reflexivity.
Qed.

Lemma shr_spec r e n : 0 <= shr_m r ->
  shr_m (fst (shr r e n)) = shr_m r / 2 ^ Z.max n 0 /\ snd (shr r e n) = e + Z.max n 0.
Proof.
  intro Hr. destruct n as [| p | p]; simpl.
  - rewrite Z.div_1_r. lia.
  - rewrite iter_pos_shr_1 by assumption. split; [reflexivity | lia].
  - rewrite Z.div_1_r. lia.
Qed.

Lemma shr_record_of_loc_m m l : shr_m (shr_record_of_loc m l) = m.
Proof. destruct l as [| []]; reflexivity. Qed.

Lemma round_nearest_even_bounds m l : m <= round_nearest_even m l <= m + 1.
Proof. destruct l as [| []]; simpl; try lia. destruct (Z.even m); lia. Qed.



Lemma iter_xO_value k : forall m, Zpos (Pos.iter xO m k) = Zpos m * 2 ^ Zpos k.
Proof.
  induction k using Pos.peano_ind; intro m.
  - simpl. lia.
  - rewrite Pos.iter_succ, Pos2Z.inj_xO, IHk, Pos2Z.inj_succ, Z.pow_succ_r by lia. lia.
Qed.



(** *** The order of Python numbers *)

Lemma py_ge_int_int a b : py_ge (PyInt a) (PyInt b) = true <-> b <= a.
Proof.
  unfold py_ge, py_compare.
  destruct (Z.compare_spec a b) as [Hc | Hc | Hc]; split; intro Hge;
    try reflexivity; try discriminate; lia.
Qed.

(** The comparison of a double with an int is that of their exact values. *)
Lemma compare_int_exact f n q :
  Float.value f = Some q ->
  Float.compare_int f n = Some (Qcompare q (inject_Z n)).
Proof.
  destruct f as [s | s | | s m e]; simpl; try discriminate.
  - intro H. injection H as <-. unfold Qcompare. simpl. rewrite Z.mul_1_r. reflexivity.
  - intro H. injection H as <-. f_equal.
    destruct (0 <=? e) eqn:E.
    + unfold Qcompare, inject_Z. cbn [Qnum Qden]. rewrite !Z.mul_1_r. reflexivity.
    + apply Z.leb_gt in E. unfold Qcompare, inject_Z. cbn [Qnum Qden].
      rewrite Z.mul_1_r, Z2Pos.id by (apply Z.pow_pos_nonneg; lia). reflexivity.
Qed.

Lemma py_ge_float_int f n q :
  Float.value f = Some q ->
  (py_ge (PyFloat f) (PyInt n) = true <-> (inject_Z n <= q)%Q).
Proof.
  intro H. unfold py_ge, py_compare. rewrite (compare_int_exact f n q H).
  rewrite Qle_alt, <- (Qcompare_antisym (inject_Z n) q).
  destruct (Qcompare (inject_Z n) q); simpl; split; intro Hc;
    try reflexivity; try discriminate; try (intro; discriminate);
    exfalso; apply Hc; reflexivity.
Qed.

Lemma py_ge_int_float n f q :
  Float.value f = Some q ->
  (py_ge (PyInt n) (PyFloat f) = true <-> (q <= inject_Z n)%Q).
Proof.
  intro H. unfold py_ge, py_compare. rewrite (compare_int_exact f n q H).
  rewrite Qle_alt.
  destruct (Qcompare q (inject_Z n)); simpl; split; intro Hc;
    try reflexivity; try discriminate; try (intro; discriminate);
    exfalso; apply Hc; reflexivity.
Qed.

(** Values Python gives: [1 / 3], [600 / 1000 * 100] and [0 / -5]. *)
Example int_true_divide_third :
  Float.int_true_divide 1 3 = Ok (S754_finite false 6004799503160661 (-54)).
Proof. vm_compute. reflexivity. Qed.

Example reduction_of_sixty :
  reduction_of 1000 400 = Ok (PyFloat (S754_finite false 8444249301319680 (-47))) /\
  exists q, Float.value (S754_finite false 8444249301319680 (-47)) = Some q /\
            (q == 60 # 1)%Q.
Proof.
  split; [vm_compute; reflexivity |].
  eexists. split; [reflexivity |]. vm_compute. reflexivity.
Qed.

Example int_true_divide_negative_zero :
  Float.int_true_divide 0 (-5) = Ok (S754_zero true).
Proof. vm_compute. reflexivity. Qed.

(** *** The average *)


Lemma average_reduction_nil : average_reduction [] = Err ZeroDivisionError.
Proof. reflexivity. Qed.



(** *** Sorting of the file names *)
















(** *** The three ways [main] ends *)


Lemma main_missing_directory s :
  entries (disk s) scenarios_dir = None ->
  main s =
  (SysExit 1,
   printed s [ ("Error: Scenarios directory not found: " ++ scenarios_dir)%string;
               "Please create benchmark scenarios first." ]).
Proof. intro H. rewrite main_spec. unfold main_outcome. rewrite H. reflexivity. Qed.

Lemma main_no_scenario_files s names :
  entries (disk s) scenarios_dir = Some names ->
  filter (ends_with ".json") names = [] ->
  main s =
  (SysExit 1, printed s [ ("Error: No scenario files found in " ++ scenarios_dir)%string ]).
Proof.
  intros H Hf. rewrite main_spec. unfold main_outcome. rewrite H, Hf. reflexivity.
Qed.

Lemma main_discovered s :
  discovered (disk s) <> [] ->
  main s =
  let files := discovered (disk s) in
  let results := evaluated (disk s) in
  let s1 := printed s (found_line files :: error_lines (disk s) files) in
  match average_reduction results with
  | Err e => (Raise e, printed s1 (header_lines ++ flat_map result_lines results))
  | Ok avg =>
      (SysExit (if forallb meets_expectation results then 0 else 1),
       exported (printed s1 (header_lines ++ flat_map result_lines results
                               ++ summary_lines results avg))
                results avg results_file)
  end.
Proof.
  intro Hne. rewrite main_spec. unfold main_outcome, evaluated, discovered in *.
  destruct (entries (disk s) scenarios_dir) as [names |]; [| congruence].
  destruct (sorted (filter (ends_with ".json") names)); [congruence | reflexivity].
Qed.

Lemma main_none_evaluated s :
  discovered (disk s) <> [] -> evaluated (disk s) = [] ->
  main s =
  (Raise ZeroDivisionError,
   printed s (found_line (discovered (disk s))
                :: error_lines (disk s) (discovered (disk s)) ++ header_lines)).
Proof.
  intros Hne Hnil. rewrite main_discovered by assumption. cbv zeta.
  rewrite Hnil, average_reduction_nil, printed_app. simpl flat_map.
  rewrite app_nil_r. reflexivity.
Qed.


(** *** Token counts *)

Lemma pure_of_count_tokens file_path d :
  pure_of (count_tokens file_path) d =
  res_bind (encoding_for_model default_model) (fun enc =>
  res_bind (as_path file_path) (fun path =>
  res_bind (content d path) (fun text =>
  res_bind (enc text) (fun tokens => Ok (len tokens))))).
Proof.
  unfold count_tokens, count_tokens_with.
  repeat (rewrite pure_of_bind by (repeat readonly_step);
          rewrite ?pure_of_lift, ?pure_of_read_text;
          match goal with
          | |- res_bind ?x _ = res_bind ?x _ => destruct x; simpl; [ | reflexivity ]
          end).
  apply pure_of_ret.
Qed.

Lemma len_nonneg {A} (l : list A) : 0 <= len l.
Proof. unfold len. lia. Qed.

Lemma count_tokens_nonneg file_path d n :
  pure_of (count_tokens file_path) d = Ok n -> 0 <= n.
Proof.
  rewrite pure_of_count_tokens. intro H. do 4 res_case H.
  injection H as <-. apply len_nonneg.
Qed.

Lemma sum_tokens_from_nonneg files d :
  forall acc n, 0 <= acc -> pure_of (sum_tokens_from acc files) d = Ok n -> 0 <= n.
Proof.
  induction files as [| f rest IH]; intros acc n Hacc H; simpl in H.
  - rewrite pure_of_ret in H. injection H as <-. exact Hacc.
  - rewrite pure_of_bind in H by apply count_tokens_readonly.
    destruct (pure_of (count_tokens f) d) as [k | e] eqn:Hk; simpl in H; [| discriminate].
    apply count_tokens_nonneg in Hk. eapply IH; [| exact H]. lia.
Qed.

Lemma sum_tokens_nonneg files d n : pure_of (sum_tokens files) d = Ok n -> 0 <= n.
Proof. apply sum_tokens_from_nonneg. lia. Qed.

(** *** The reduction *)

Lemma of_int_100 : Float.of_int 100 = Ok (S754_finite false 7036874417766400 (-46)).
Proof. vm_compute. reflexivity. Qed.

Lemma reduction_of_positive b sk :
  0 < b ->
  reduction_of b sk =
  res_bind (py_truediv (PyInt (b - sk)) (PyInt b)) (fun q => py_mul q (PyInt 100)).
Proof.
  intro H. unfold reduction_of.
  destruct (b >? 0) eqn:E; [reflexivity |].
  rewrite Z.gtb_ltb in E. apply Z.ltb_ge in E. lia.
Qed.

Lemma reduction_of_zero sk : reduction_of 0 sk = Ok (PyInt 0).
Proof. reflexivity. Qed.

Lemma int_true_divide_nonzero a b :
  b <> 0 -> Float.int_true_divide a b <> Err ZeroDivisionError.
Proof.
  intro Hb. unfold Float.int_true_divide.
  destruct (b =? 0) eqn:E; [apply Z.eqb_eq in E; contradiction |].
  destruct (a =? 0); [discriminate |].
  destruct (SFdiv_core_binary Float.prec Float.emax (Z.abs a) 0 (Z.abs b) 0) as [[q e] l].
  destruct (binary_round_aux Float.prec Float.emax (xorb (a <? 0) (b <? 0)) q e l);
    discriminate.
Qed.

Lemma reduction_of_no_zero_division b sk : reduction_of b sk <> Err ZeroDivisionError.
Proof.
  unfold reduction_of. destruct (b >? 0) eqn:E; [| discriminate].
  rewrite Z.gtb_ltb in E. apply Z.ltb_lt in E.
  unfold py_truediv.
  pose proof (int_true_divide_nonzero (b - sk) b ltac:(lia)) as Hd.
  destruct (Float.int_true_divide (b - sk) b) as [q | e]; cbn [res_bind].
  - unfold py_mul, to_float. rewrite of_int_100. discriminate.
  - congruence.
Qed.

(** *** Evaluation depends on the input files only *)

Lemma pure_of_count_tokens_agree d1 d2 file_path :
  (forall path, file_path = JStr path -> content d1 path = content d2 path) ->
  pure_of (count_tokens file_path) d1 = pure_of (count_tokens file_path) d2.
Proof.
  intro H. rewrite !pure_of_count_tokens.
  destruct (encoding_for_model default_model); simpl; [| reflexivity].
  destruct file_path; simpl; try reflexivity.
  rewrite (H s eq_refl). reflexivity.
Qed.

Lemma sum_tokens_from_agree d1 d2 files :
  (forall path, In path (paths_in files) -> content d1 path = content d2 path) ->
  forall acc, pure_of (sum_tokens_from acc files) d1 = pure_of (sum_tokens_from acc files) d2.
Proof.
  induction files as [| f rest IH]; intros H acc; simpl.
  - reflexivity.
  - rewrite !pure_of_bind by apply count_tokens_readonly.
    rewrite (pure_of_count_tokens_agree d1 d2 f).
    + destruct (pure_of (count_tokens f) d2); simpl; [| reflexivity].
      apply IH. intros path Hin. apply H. unfold paths_in in *. simpl.
      apply in_or_app. right. exact Hin.
    + intros path ->. apply H. simpl. left. reflexivity.
Qed.

Lemma evaluate_agree d1 d2 scenario_file :
  (forall path, In path (referenced_files d1 scenario_file) ->
                content d1 path = content d2 path) ->
  evaluate d1 scenario_file = evaluate d2 scenario_file.
Proof.
  intro H. rewrite !evaluate_eq. unfold sum_tokens.
  assert (H0 : content d1 scenario_file = content d2 scenario_file)
    by (apply H; left; reflexivity).
  unfold referenced_files in H. rewrite H0 in H. rewrite H0.
  destruct (content d2 scenario_file) as [text |]; simpl in *; [| reflexivity].
  destruct (json_loads text) as [sc |]; simpl in *; [| reflexivity].
  destruct (files_of sc "baseline") as [bf |] eqn:Hb; simpl in *; [| reflexivity].
  rewrite (sum_tokens_from_agree d1 d2 bf).
  - destruct (pure_of (sum_tokens_from 0 bf) d2); simpl; [| reflexivity].
    destruct (files_of sc "skills") as [sf |] eqn:Hs; simpl in *; [| reflexivity].
    rewrite (sum_tokens_from_agree d1 d2 sf); [reflexivity |].
    intros path Hin. apply H. right. apply in_or_app. right. exact Hin.
  - intros path Hin. apply H. right. apply in_or_app. left. exact Hin.
Qed.


(** *** Agreement of two runs *)



Lemma successes_app d l1 l2 :
  successes d (l1 ++ l2) = successes d l1 ++ successes d l2.
Proof. unfold successes. apply flat_map_app. Qed.

Lemma error_lines_app d l1 l2 :
  error_lines d (l1 ++ l2) = error_lines d l1 ++ error_lines d l2.
Proof. unfold error_lines. apply flat_map_app. Qed.

(** A scenario that raises leaves one line and no result; the scenarios
    around it are evaluated as if it were not there. *)
Lemma failed_scenario_skipped d before f after e :
  evaluate d (scenario_path f) = Err e ->
  successes d (before ++ f :: after) = successes d before ++ successes d after /\
  error_lines d (before ++ f :: after) =
  error_lines d before ++ error_line f e :: error_lines d after.
Proof.
  intro H. rewrite successes_app, error_lines_app.
  unfold successes at 2, error_lines at 2. simpl. rewrite H. split; reflexivity.
Qed.

Lemma evaluated_nil_of_all_fail d :
  (forall f, In f (discovered d) -> exists e, evaluate d (scenario_path f) = Err e) ->
  evaluated d = [].
Proof.
  unfold evaluated, successes. induction (discovered d) as [| f rest IH]; intro H; simpl.
  - reflexivity.
  - destruct (H f (or_introl eq_refl)) as [e He]. rewrite He. simpl.
    apply IH. intros g Hg. apply H. right. exact Hg.
Qed.


(** ** The claims *)


(** C2. In the result of every evaluated scenario, the reduction is
    [(baseline - skill) / baseline * 100] in Python arithmetic when the
    baseline count is positive, and the int 0 when it is zero; counts are
    never negative, and computing the reduction never divides by zero. *)
Theorem reduction_percentage_formula d scenario_file r :
  evaluate d scenario_file = Ok r ->
  0 <= baseline_tokens r /\
  (0 < baseline_tokens r ->
   exists q,
     py_truediv (PyInt (baseline_tokens r - skill_tokens r)) (PyInt (baseline_tokens r))
     = Ok q /\
     py_mul q (PyInt 100) = Ok (reduction_percentage r)) /\
  (baseline_tokens r = 0 -> reduction_percentage r = PyInt 0) /\
  (forall b sk, reduction_of b sk <> Err ZeroDivisionError).
Proof.
  intro H. apply evaluate_inv in H. destruct H.
  split; [eapply sum_tokens_nonneg; eassumption |].
  split; [| split].
  - intro Hpos. rewrite reduction_of_positive in ev_reduction by assumption.
    destruct (py_truediv (PyInt (baseline_tokens r - skill_tokens r))
                (PyInt (baseline_tokens r))) as [q | e]; [| discriminate].
    exists q. split; [reflexivity | exact ev_reduction].
  - intro Hz. rewrite Hz, reduction_of_zero in ev_reduction. congruence.
  - apply reduction_of_no_zero_division.
Qed.

(** C4. When scenarios are discovered and every one of them raises, the
    average divides by the length 0 of the results: [main] ends by an
    uncaught ZeroDivisionError after the header of the report, with no
    summary printed and the disk as it was, so no file exported; the process
    status is that of an uncaught exception. *)
Theorem all_scenarios_fail_crash s :
  discovered (disk s) <> [] ->
  (forall f, In f (discovered (disk s)) ->
             exists e, evaluate (disk s) (scenario_path f) = Err e) ->
  average_reduction (evaluated (disk s)) = Err ZeroDivisionError /\
  fst (main s) = Raise ZeroDivisionError /\
  stdout (snd (main s)) =
  stdout s ++ found_line (discovered (disk s))
           :: error_lines (disk s) (discovered (disk s)) ++ header_lines /\
  disk (snd (main s)) = disk s /\
  exit_status (fst (main s)) = 1.
Proof.
  intros Hne Hall.
  pose proof (evaluated_nil_of_all_fail (disk s) Hall) as Hev.
  rewrite main_none_evaluated by assumption. rewrite Hev.
  repeat split; reflexivity.
Qed.

(** C5. When the scenarios directory does not exist, or holds no entry
    ending in .json, [main] prints its diagnostic and exits at once with
    status 1: nothing else is printed and the disk is left as it was. *)
Theorem discovery_failure_is_fatal s :
  entries (disk s) scenarios_dir = None \/
  (exists names, entries (disk s) scenarios_dir = Some names /\
                 filter (ends_with ".json") names = []) ->
  fst (main s) = SysExit 1 /\
  disk (snd (main s)) = disk s /\
  (stdout (snd (main s)) =
   stdout s ++ [ ("Error: Scenarios directory not found: " ++ scenarios_dir)%string;
                 "Please create benchmark scenarios first." ] \/
   stdout (snd (main s)) =
   stdout s ++ [ ("Error: No scenario files found in " ++ scenarios_dir)%string ]).
Proof.
  intros [H | (names & H & Hf)].
  - rewrite main_missing_directory by assumption.
    repeat split. left. reflexivity.
  - rewrite (main_no_scenario_files s names) by assumption.
    repeat split. right. reflexivity.
Qed.

(** C6. In the result of every evaluated scenario the expected reduction
    is a number, and [meets_expectation] is true exactly when
    [reduction_percentage >= expected_reduction] holds in Python; against an
    int threshold that is the order of the exact values. *)
Theorem meets_expectation_iff d scenario_file r :
  evaluate d scenario_file = Ok r ->
  exists expected,
    as_number (expected_reduction r) = Ok expected /\
    (meets_expectation r = true <-> py_ge (reduction_percentage r) expected = true) /\
    (forall n x q,
       expected = PyInt n -> reduction_percentage r = PyFloat x ->
       Float.value x = Some q ->
       (meets_expectation r = true <-> (inject_Z n <= q)%Q)) /\
    (forall n,
       expected = PyInt n -> reduction_percentage r = PyInt 0 ->
       (meets_expectation r = true <-> n <= 0)).
Proof.
  intro H. apply evaluate_inv in H. destruct H.
  unfold ge_expected in ev_meets.
  destruct (as_number (expected_reduction r)) as [n | e]; [| discriminate].
  exists n. split; [reflexivity |].
  simpl in ev_meets. injection ev_meets as <-.
  split; [reflexivity |]. split.
  - intros k x q -> -> Hq. apply py_ge_float_int, Hq.
  - intros k -> ->. apply py_ge_int_int.
Qed.



(** C9. The tokenizer being a function of the model and the text, the
    result of evaluating a scenario is determined by the contents of its
    descriptor and of the files it lists: two disks that agree on them give
    the same result or the same exception, and evaluating a scenario again
    after it was evaluated gives the same outcome. *)
Theorem evaluation_is_reproducible d1 d2 scenario_file :
  (forall path, In path (referenced_files d1 scenario_file) ->
                content d1 path = content d2 path) ->
  evaluate d1 scenario_file = evaluate d2 scenario_file /\
  (forall s1 s2, disk s1 = d1 -> disk s2 = d2 ->
                 fst (run_scenario scenario_file s1) = fst (run_scenario scenario_file s2)) /\
  (forall s, disk s = d1 ->
             run_scenario scenario_file (snd (run_scenario scenario_file s))
             = run_scenario scenario_file s).
Proof.
  intro H. pose proof (evaluate_agree d1 d2 scenario_file H) as Heq.
  split; [exact Heq |]. split.
  - intros s1 s2 <- <-. rewrite !run_scenario_evaluate, Heq.
    destruct (evaluate (disk s2) scenario_file); reflexivity.
  - intros s _. rewrite !run_scenario_evaluate.
    destruct (evaluate (disk s) scenario_file) eqn:E; simpl; rewrite ?E; reflexivity.
Qed.

(** ** Further properties of the script *)

(** *** The summary and the exit status *)





(** X2. The loop of [main] neither raises nor exits: over any list of
    files it returns the results and prints the error lines, and together
    they are one per file, so no scenario is dropped unseen. *)
Theorem loop_accounts_for_every_file files s :
  run_all files [] s
  = (Ret (successes (disk s) files), printed s (error_lines (disk s) files)) /\
  len (successes (disk s) files) + len (error_lines (disk s) files) = len files /\
  (forall f, In f files ->
     match evaluate (disk s) (scenario_path f) with
     | Ok r => In r (successes (disk s) files)
     | Err e => In (error_line f e) (error_lines (disk s) files)
     end).
Proof.
  split; [rewrite run_all_spec; reflexivity |]. split.
  - unfold len, successes, error_lines. induction files as [| f rest IH]; simpl; [reflexivity |].
    rewrite !length_app.
    destruct (evaluate (disk s) (scenario_path f)); simpl List.length; lia.
  - intros f Hin. unfold successes, error_lines.
    destruct (evaluate (disk s) (scenario_path f)) as [r | e] eqn:E.
    + apply in_flat_map. exists f. split; [exact Hin |]. rewrite E. left. reflexivity.
    + apply in_flat_map. exists f. split; [exact Hin |]. rewrite E. left. reflexivity.
Qed.




(** X4. The exit status of the process is 0 or 1 on every disk, with or
    without tiktoken. *)
Theorem exit_status_zero_or_one installed s :
  exit_status (fst (script installed s)) = 0 \/ exit_status (fst (script installed s)) = 1.
Proof.
  destruct installed; [| right; reflexivity].
  unfold script. rewrite main_spec. unfold main_outcome.
  destruct (entries (disk s) scenarios_dir) as [names |]; [| right; reflexivity].
  destruct (sorted (filter (ends_with ".json") names)) as [| f files]; [right; reflexivity |].
  destruct (average_reduction (successes (disk s) (f :: files))); [| right; reflexivity].
  cbn [fst exit_status].
  destruct (forallb meets_expectation (successes (disk s) (f :: files))); [left | right];
    reflexivity.
Qed.

(** X5. Status 0 is a guarantee on every disk: tiktoken was imported, at
    least one scenario was evaluated, all results pass, and the results file
    holds the exported record. *)
Theorem exit_zero_guarantees_export installed s :
  exit_status (fst (script installed s)) = 0 ->
  installed = true /\
  evaluated (disk s) <> [] /\
  forallb meets_expectation (evaluated (disk s)) = true /\
  exists avg,
    average_reduction (evaluated (disk s)) = Ok avg /\
    content (disk (snd (script installed s))) results_file
    = Ok (json_dumps (export_record (evaluated (disk s)) avg)).
Proof.
  destruct installed; [| discriminate].
  unfold script. rewrite main_spec. unfold main_outcome, evaluated, discovered.
  destruct (entries (disk s) scenarios_dir) as [names |]; [| discriminate].
  destruct (sorted (filter (ends_with ".json") names)) as [| f files]; [discriminate |].
  destruct (average_reduction (successes (disk s) (f :: files))) as [avg | e] eqn:Havg;
    [| discriminate].
  cbn [fst snd exit_status].
  destruct (forallb meets_expectation (successes (disk s) (f :: files))) eqn:Hall;
    [| discriminate].
  intros _. split; [reflexivity |]. split.
  - intro Hnil. rewrite Hnil, average_reduction_nil in Havg. discriminate.
  - split; [reflexivity |]. exists avg. split; [reflexivity |].
    unfold exported, write_file. cbn [disk content]. rewrite String.eqb_refl. reflexivity.
Qed.

(** X6. [run_scenario] leaves the standard output and the disk as they
    were and never ends the process, whatever the descriptor holds: its only
    effect is its result or its exception. *)
Theorem run_scenario_leaves_state scenario_file s :
  snd (run_scenario scenario_file s) = s /\
  (forall code, fst (run_scenario scenario_file s) <> SysExit code) /\
  (forall r, fst (run_scenario scenario_file s) = Ret r <->
             evaluate (disk s) scenario_file = Ok r).
Proof.
  rewrite run_scenario_evaluate. unfold lift.
  destruct (evaluate (disk s) scenario_file) as [r | e]; cbn [fst snd].
  - split; [reflexivity |]. split; [discriminate |].
    intro r'. split; intro H; injection H as <-; reflexivity.
  - split; [reflexivity |]. split; [discriminate |].
    intro r'. split; discriminate.
Qed.

(** *** Token totals *)

Lemma sum_tokens_from_total files d :
  forall acc n,
    pure_of (sum_tokens_from acc files) d = Ok n <->
    Forall (fun f => exists c, pure_of (count_tokens f) d = Ok c) files /\
    n = acc + fold_right Z.add 0 (map (count_or_zero d) files).
Proof.
  induction files as [| f rest IH]; intros acc n; simpl.
  - rewrite pure_of_ret. split.
    + intro H. injection H as <-. split; [constructor | lia].
    + intros [_ ->]. f_equal. lia.
  - rewrite pure_of_bind by apply count_tokens_readonly.
    unfold count_or_zero at 1.
    destruct (pure_of (count_tokens f) d) as [c | e] eqn:E; simpl.
    + rewrite IH. split.
      * intros [Hall ->]. split; [constructor; eauto | lia].
      * intros [Hall ->]. inversion Hall; subst. split; [assumption | lia].
    + split; [discriminate |].
      intros [Hall _]. inversion Hall as [| ? ? [c Hc] ?]; subst. congruence.
Qed.

Lemma fold_add_permutation l l' :
  Permutation l l' -> fold_right Z.add 0 l = fold_right Z.add 0 l'.
Proof.
  induction 1; simpl; lia.
Qed.

(** X7. The total of a file list that is two lists one after the other
    is the sum of their totals, and it exists exactly when both do: a file
    listed twice is counted twice. *)
Theorem token_total_of_concatenation d files1 files2 n :
  pure_of (sum_tokens (files1 ++ files2)) d = Ok n <->
  exists n1 n2,
    pure_of (sum_tokens files1) d = Ok n1 /\
    pure_of (sum_tokens files2) d = Ok n2 /\
    n = n1 + n2.
Proof.
  unfold sum_tokens. rewrite sum_tokens_from_total, map_app, fold_right_app, Forall_app.
  assert (Hfold : forall l acc, fold_right Z.add acc l = fold_right Z.add 0 l + acc).
  { induction l as [| x l IHl]; intro acc; simpl; [lia | rewrite IHl; lia]. }
  rewrite Hfold. split.
  - intros [[H1 H2] ->]. do 2 eexists.
    split; [apply sum_tokens_from_total; split; [exact H1 | reflexivity] |].
    split; [apply sum_tokens_from_total; split; [exact H2 | reflexivity] |]. lia.
  - intros (n1 & n2 & H1 & H2 & ->).
    apply sum_tokens_from_total in H1, H2. destruct H1 as [H1 ->], H2 as [H2 ->].
    split; [split; assumption | lia].
Qed.

(** X8. The total does not depend on the order in which a descriptor
    lists its files: a reordered list that is counted in full gives the same
    number. *)
Theorem token_total_ignores_order d files files' n :
  Permutation files files' ->
  pure_of (sum_tokens files) d = Ok n ->
  pure_of (sum_tokens files') d = Ok n.
Proof.
  intros Hp. unfold sum_tokens. rewrite !sum_tokens_from_total. intros [Hall ->].
  split.
  - eapply Permutation_Forall; eassumption.
  - f_equal. apply fold_add_permutation, Permutation_map, Hp.
Qed.

(** *** Exact reductions *)

Lemma div_eucl_multiple b k : 0 < b -> Z.div_eucl (b * k) b = (k, 0).
Proof.
  intro Hb.
  assert (Hq : (b * k) / b = k) by (rewrite Z.mul_comm; apply Z.div_mul; lia).
  assert (Hr : (b * k) mod b = 0) by (rewrite Z.mul_comm; apply Z.mod_mul; lia).
  unfold Z.div, Z.modulo in Hq, Hr.
  destruct (Z.div_eucl (b * k) b) as [q r]. congruence.
Qed.

Lemma int_true_divide_self b :
  0 < b -> Float.int_true_divide b b = Ok (S754_finite false 4503599627370496 (-52)).
Proof.
  intro Hb. unfold Float.int_true_divide.
  destruct (Z.eqb_spec b 0) as [-> | _]; [lia |].
  rewrite Z.abs_eq by lia. unfold SFdiv_core_binary.
  replace (Zdigits2 b + 0 - (Zdigits2 b + 0)) with 0 by lia.
  change (Z.min (fexp Float.prec Float.emax 0) (0 - 0)) with (-53).
  change (0 - 0 - -53) with 53. cbv iota.
  rewrite Z.shiftl_mul_pow2 by lia. rewrite (div_eucl_multiple b (2 ^ 53) Hb).
  assert (Hloc : new_location b 0 = loc_Exact).
  { unfold new_location, new_location_even, new_location_odd.
    destruct (Z.even b); reflexivity. }
  rewrite Hloc.
  assert (Hlt : (b <? 0) = false) by (apply Z.ltb_ge; lia).
  rewrite Hlt. vm_compute. reflexivity.
Qed.

(** X9. With a positive baseline, equal token counts give the float 0.0
    exactly and an empty skill side gives 100.0 exactly, whatever the size
    of the counts. *)
Theorem reduction_at_the_ends b :
  0 < b ->
  reduction_of b b = Ok (PyFloat (S754_zero false)) /\
  reduction_of b 0 = Ok (PyFloat (S754_finite false 7036874417766400 (-46))).
Proof.
  intro Hb. rewrite !reduction_of_positive by assumption. split.
  - rewrite Z.sub_diag. unfold py_truediv, Float.int_true_divide.
    destruct (Z.eqb_spec b 0) as [-> | _]; [lia |].
    assert (Hlt : (b <? 0) = false) by (apply Z.ltb_ge; lia).
    rewrite Hlt. cbn [Z.eqb res_bind]. unfold py_mul, to_float. rewrite of_int_100.
    reflexivity.
  - rewrite Z.sub_0_r. unfold py_truediv. rewrite int_true_divide_self by assumption.
    cbn [res_bind]. unfold py_mul, to_float. rewrite of_int_100.
    vm_compute. reflexivity.
Qed.

(** *** The sign of the reduction *)

Lemma binary_round_aux_sign sx mx ex lx :
  0 <= mx -> has_sign sx (binary_round_aux Float.prec Float.emax sx mx ex lx).
Proof.
  intro Hmx. unfold binary_round_aux, shr_fexp.
  set (k1 := fexp Float.prec Float.emax (Zdigits2 mx + ex) - ex).
  destruct (shr_spec (shr_record_of_loc mx lx) ex k1) as [Hm1 _].
  { rewrite shr_record_of_loc_m. exact Hmx. }
  destruct (shr (shr_record_of_loc mx lx) ex k1) as [mrs' e'].
  cbn [fst] in Hm1. rewrite shr_record_of_loc_m in Hm1.
  assert (H1 : 0 <= shr_m mrs').
  { rewrite Hm1. apply Z.div_pos; [exact Hmx | apply Z.pow_pos_nonneg; lia]. }
  pose proof (round_nearest_even_bounds (shr_m mrs') (loc_of_shr_record mrs')) as Hb.
  set (m2 := round_nearest_even (shr_m mrs') (loc_of_shr_record mrs')) in *.
  set (k2 := fexp Float.prec Float.emax (Zdigits2 m2 + e') - e').
  destruct (shr_spec (shr_record_of_loc m2 loc_Exact) e' k2) as [Hm3 _].
  { rewrite shr_record_of_loc_m. lia. }
  destruct (shr (shr_record_of_loc m2 loc_Exact) e' k2) as [mrs'' e''].
  cbn [fst] in Hm3. rewrite shr_record_of_loc_m in Hm3.
  assert (H3 : 0 <= shr_m mrs'').
  { rewrite Hm3. apply Z.div_pos; [lia | apply Z.pow_pos_nonneg; lia]. }
  destruct (shr_m mrs'') as [| m | m].
  - reflexivity.
  - destruct (e'' <=? Float.emax - Float.prec); reflexivity.
  - lia.
Qed.

Lemma div_core_quotient_nonneg a b q e l :
  0 <= a -> 0 < b ->
  SFdiv_core_binary Float.prec Float.emax a 0 b 0 = (q, e, l) -> 0 <= q.
Proof.
  intros Ha Hb. unfold SFdiv_core_binary.
  set (e' := Z.min _ _). set (m' := match 0 - 0 - e' with Z0 => a | Zpos _ => _ | Zneg _ => 0 end).
  assert (Hm : 0 <= m').
  { unfold m'. destruct (0 - 0 - e'); [exact Ha | apply Z.shiftl_nonneg; exact Ha | lia]. }
  pose proof (Z.div_pos m' b Hm Hb) as Hq. unfold Z.div in Hq.
  destruct (Z.div_eucl m' b) as [q0 r0]. intro H. injection H as <- _ _. exact Hq.
Qed.

Lemma int_true_divide_sign a b q :
  Float.int_true_divide a b = Ok q -> has_sign (xorb (a <? 0) (b <? 0)) q.
Proof.
  unfold Float.int_true_divide.
  destruct (Z.eqb_spec b 0) as [-> | Hb]; [discriminate |].
  destruct (Z.eqb_spec a 0) as [-> | Ha].
  - intro H. injection H as <-. reflexivity.
  - destruct (SFdiv_core_binary Float.prec Float.emax (Z.abs a) 0 (Z.abs b) 0)
      as [[m e] l] eqn:Hcore.
    apply div_core_quotient_nonneg in Hcore; [| lia | lia].
    pose proof (binary_round_aux_sign (xorb (a <? 0) (b <? 0)) m e l Hcore) as Hs.
    destruct (binary_round_aux Float.prec Float.emax (xorb (a <? 0) (b <? 0)) m e l);
      intro H; try discriminate; injection H as <-; exact Hs.
Qed.

Lemma mul_keeps_sign sign f m e :
  has_sign sign f -> has_sign sign (Float.mul f (S754_finite false m e)).
Proof.
  unfold Float.mul. destruct f as [t | t | | t n k]; simpl; intro H.
  - subst. apply xorb_false_r.
  - subst. apply xorb_false_r.
  - contradiction.
  - subst. rewrite xorb_false_r. apply (binary_round_aux_sign sign). lia.
Qed.

Lemma reduction_of_sign b sk x :
  0 < b -> reduction_of b sk = Ok x ->
  exists f, x = PyFloat f /\ has_sign (b - sk <? 0) f.
Proof.
  intros Hb. rewrite reduction_of_positive by assumption. unfold py_truediv.
  destruct (Float.int_true_divide (b - sk) b) as [q | e] eqn:Hq; [| discriminate].
  apply int_true_divide_sign in Hq.
  assert (Hlt : (b <? 0) = false) by (apply Z.ltb_ge; lia).
  rewrite Hlt, xorb_false_r in Hq.
  cbn [res_bind]. unfold py_mul, to_float. rewrite of_int_100. cbn [res_bind].
  intro H. injection H as <-. eexists. split; [reflexivity |].
  apply mul_keeps_sign, Hq.
Qed.

Lemma compare_int_negative f n :
  has_sign true f -> 1 <= n -> Float.compare_int f n = Some Lt.
Proof.
  intros Hs Hn. destruct f as [t | t | | t m e]; cbn [has_sign] in Hs;
    subst; try contradiction; cbn [Float.compare_int].
  - f_equal. apply Z.compare_lt_iff. lia.
  - reflexivity.
  - f_equal. destruct (0 <=? e) eqn:E; apply Z.compare_lt_iff.
    + apply Z.leb_le in E.
      assert (0 < 2 ^ e) by (apply Z.pow_pos_nonneg; lia).
      assert (Zneg m * 2 ^ e < 0) by (apply Z.mul_neg_pos; lia). lia.
    + apply Z.leb_gt in E.
      assert (0 < 2 ^ (- e)) by (apply Z.pow_pos_nonneg; lia).
      assert (0 < n * 2 ^ (- e)) by (apply Z.mul_pos_pos; lia). lia.
Qed.

Lemma compare_int_nonnegative f n :
  has_sign false f -> n <= 0 ->
  Float.compare_int f n = Some Gt \/ Float.compare_int f n = Some Eq.
Proof.
  intros Hs Hn. destruct f as [t | t | | t m e]; cbn [has_sign] in Hs;
    subst; try contradiction; cbn [Float.compare_int].
  - destruct (Z.compare_spec 0 n); [right | lia | left]; reflexivity.
  - left. reflexivity.
  - left. f_equal. destruct (0 <=? e) eqn:E; apply Z.compare_gt_iff.
    + apply Z.leb_le in E.
      assert (0 < 2 ^ e) by (apply Z.pow_pos_nonneg; lia).
      assert (0 < Zpos m * 2 ^ e) by (apply Z.mul_pos_pos; lia). lia.
    + apply Z.leb_gt in E.
      assert (0 < 2 ^ (- e)) by (apply Z.pow_pos_nonneg; lia).
      assert (n * 2 ^ (- e) <= 0) by (apply Z.mul_nonpos_nonneg; lia). lia.
Qed.

(** X10. A scenario whose skill files hold more tokens than its baseline
    never meets an int threshold of 1 or more: its reduction is negative, or
    0 when the baseline is empty. *)
Theorem larger_skills_never_pass d scenario_file r n :
  evaluate d scenario_file = Ok r ->
  baseline_tokens r < skill_tokens r ->
  as_number (expected_reduction r) = Ok (PyInt n) -> 1 <= n ->
  meets_expectation r = false.
Proof.
  intros H Hlt Hnum Hn. apply evaluate_inv in H. destruct H.
  pose proof (sum_tokens_nonneg _ _ _ ev_baseline_sum) as Hb.
  unfold ge_expected in ev_meets. rewrite Hnum in ev_meets. simpl in ev_meets.
  injection ev_meets as <-.
  destruct (Z.eq_dec (baseline_tokens r) 0) as [Hz | Hnz].
  - rewrite Hz, reduction_of_zero in ev_reduction. injection ev_reduction as <-.
    unfold py_ge, py_compare.
    assert (Hc : (0 ?= n) = Lt) by (apply Z.compare_lt_iff; lia).
    rewrite Hc. reflexivity.
  - assert (Hbpos : 0 < baseline_tokens r) by lia.
    destruct (reduction_of_sign _ _ _ Hbpos ev_reduction) as (f & Hf & Hs).
    rewrite Hf.
    assert (Hneg : (baseline_tokens r - skill_tokens r <? 0) = true)
      by (apply Z.ltb_lt; lia).
    rewrite Hneg in Hs. unfold py_ge, py_compare.
    rewrite (compare_int_negative f n Hs Hn). reflexivity.
Qed.

(** X11. A scenario whose skill files hold no more tokens than its
    baseline meets every int threshold of 0 or less. *)
Theorem smaller_skills_pass_zero_threshold d scenario_file r n :
  evaluate d scenario_file = Ok r ->
  skill_tokens r <= baseline_tokens r ->
  as_number (expected_reduction r) = Ok (PyInt n) -> n <= 0 ->
  meets_expectation r = true.
Proof.
  intros H Hle Hnum Hn. apply evaluate_inv in H. destruct H.
  pose proof (sum_tokens_nonneg _ _ _ ev_baseline_sum) as Hb.
  unfold ge_expected in ev_meets. rewrite Hnum in ev_meets. simpl in ev_meets.
  injection ev_meets as <-.
  destruct (Z.eq_dec (baseline_tokens r) 0) as [Hz | Hnz].
  - rewrite Hz, reduction_of_zero in ev_reduction. injection ev_reduction as <-.
    apply py_ge_int_int. exact Hn.
  - assert (Hbpos : 0 < baseline_tokens r) by lia.
    destruct (reduction_of_sign _ _ _ Hbpos ev_reduction) as (f & Hf & Hs).
    rewrite Hf.
    assert (Hpos : (baseline_tokens r - skill_tokens r <? 0) = false)
      by (apply Z.ltb_ge; lia).
    rewrite Hpos in Hs. unfold py_ge, py_compare.
    destruct (compare_int_nonnegative f n Hs Hn) as [-> | ->]; reflexivity.
Qed.

(** *** The descriptor *)

Lemma getitem_ok v key x :
  getitem v key = Ok x -> exists members, v = JObj members /\ assoc key members = Some x.
Proof.
  destruct v; simpl; try discriminate.
  destruct (assoc key members) eqn:E; [| discriminate].
  intro H. injection H as <-. eauto.
Qed.

Lemma files_of_ok sc side files :
  files_of sc side = Ok files ->
  exists members inner, sc = JObj members /\ assoc side members = Some inner.
Proof.
  unfold files_of. destruct (getitem sc side) as [inner |] eqn:E; [| discriminate].
  apply getitem_ok in E. destruct E as (members & -> & Ha). eauto.
Qed.

(** X12. A scenario is evaluated only if its descriptor decodes to an
    object that has the keys baseline, skills, name, description and
    expectedReduction, the last one bound to a number: any other descriptor
    is one of the skipped scenarios. *)
Theorem evaluated_descriptor_is_complete d scenario_file r :
  evaluate d scenario_file = Ok r ->
  exists text members,
    content d scenario_file = Ok text /\
    json_loads text = Ok (JObj members) /\
    (forall key,
       In key ["baseline"; "skills"; "name"; "description"; "expectedReduction"] ->
       assoc key members <> None) /\
    assoc "name" members = Some (scenario r) /\
    assoc "description" members = Some (description r) /\
    assoc "expectedReduction" members = Some (expected_reduction r) /\
    exists n, as_number (expected_reduction r) = Ok n.
Proof.
  intro H. pose proof (evaluate_well_formed _ _ _ H) as [Hnum _].
  apply evaluate_inv in H. destruct H.
  apply getitem_ok in ev_name. destruct ev_name as (members & -> & Hname).
  apply files_of_ok in ev_baseline, ev_skills.
  destruct ev_baseline as (m1 & i1 & E1 & Hb).
  destruct ev_skills as (m2 & i2 & E2 & Hs).
  injection E1 as <-. injection E2 as <-.
  simpl in ev_description, ev_expected.
  destruct (assoc "description" members) eqn:Hd; [| discriminate].
  destruct (assoc "expectedReduction" members) eqn:He; [| discriminate].
  injection ev_description as Hdd. injection ev_expected as Hee.
  rewrite Hdd in Hd. rewrite Hee in He.
  exists text, members. repeat split; try assumption.
  intros key Hin. simpl in Hin.
  destruct Hin as [<- | [<- | [<- | [<- | [<- | []]]]]]; congruence.
Qed.

(** X13. A descriptor that decodes to something that is not an object (a
    list, a string, a number, null) makes [run_scenario] raise TypeError, and
    one that is an object without the key baseline makes it raise
    KeyError for that key; no token is counted in either case. *)
Theorem malformed_descriptor_raises d scenario_file text sc :
  content d scenario_file = Ok text ->
  json_loads text = Ok sc ->
  ((forall members, sc <> JObj members) -> evaluate d scenario_file = Err TypeError) /\
  (forall members, sc = JObj members -> assoc "baseline" members = None ->
                   evaluate d scenario_file = Err (KeyError "baseline")).
Proof.
  intros Hread Hloads. rewrite evaluate_eq, Hread. simpl. rewrite Hloads. simpl. split.
  - intro Hobj. unfold files_of. destruct sc; try reflexivity.
    exfalso. eapply Hobj. reflexivity.
  - intros members -> Hnone. unfold files_of. simpl. rewrite Hnone. reflexivity.
Qed.

(** *** The export *)


(** *** A second run *)





(** *** Discovery *)







(** *** The console output of a completed run *)


(** *** A threshold that is not a number one can compare with *)

(** X18. A descriptor whose expectedReduction is NaN, which the JSON
    decoder accepts, is evaluated and never meets its expectation. *)
Theorem nan_threshold_never_met d scenario_file r :
  evaluate d scenario_file = Ok r ->
  expected_reduction r = JFloat S754_nan ->
  meets_expectation r = false.
Proof.
  intros H Hnan. apply evaluate_inv in H. destruct H.
  unfold ge_expected in ev_meets. rewrite Hnan in ev_meets. simpl in ev_meets.
  injection ev_meets as <-. unfold py_ge, py_compare.
  destruct (reduction_percentage r) as [z | f]; [reflexivity |].
  destruct f; reflexivity.
Qed.

End Runner.

(** ** Claims about the tokenizer and runs on the concrete setting *)

Lemma bind_agree {A B} (c c' : M A) (k k' : A -> M B) s :
  c s = c' s -> (forall a s', k a s' = k' a s') -> bind c k s = bind c' k' s.
Proof.
  intros Hc Hk. unfold bind. rewrite Hc.
  destruct (c' s) as [[a | e | code] s']; [apply Hk | reflexivity | reflexivity].
Qed.

Lemma count_tokens_agree enc1 enc2 file_path s :
  agree_on_model default_model enc1 enc2 ->
  count_tokens enc1 file_path s = count_tokens enc2 file_path s.
Proof.
  unfold agree_on_model, count_tokens, count_tokens_with. intro H.
  destruct (enc1 default_model) as [e1 | x], (enc2 default_model) as [e2 | y];
    try contradiction.
  - unfold bind at 1 5. unfold lift at 1 4.
    apply bind_agree; [reflexivity |]. intros path s1.
    apply bind_agree; [reflexivity |]. intros text s2.
    rewrite H. reflexivity.
  - subst y. reflexivity.
Qed.

Lemma sum_tokens_from_agree_tokenizers enc1 enc2 files :
  agree_on_model default_model enc1 enc2 ->
  forall acc s, sum_tokens_from enc1 acc files s = sum_tokens_from enc2 acc files s.
Proof.
  intro H. induction files as [| f rest IH]; intros acc s; simpl.
  - reflexivity.
  - apply bind_agree; [apply count_tokens_agree, H |]. intros n s'. apply IH.
Qed.

(** C10. Token counting uses the encoding of the model gpt-4 and nothing
    else of the tokenizer library: [count_tokens] is [count_tokens_with] at
    that model, and two libraries that agree on gpt-4 give the same outcome
    for every scenario file, whatever the descriptor holds. *)
Theorem tokenizer_is_fixed enc1 enc2 json_loads scenario_file s :
  agree_on_model "gpt-4" enc1 enc2 ->
  run_scenario enc1 json_loads scenario_file s
  = run_scenario enc2 json_loads scenario_file s /\
  (forall file_path, count_tokens enc1 file_path = count_tokens_with enc1 file_path "gpt-4").
Proof.
  intro H. split; [| reflexivity].
  unfold run_scenario.
  apply bind_agree; [reflexivity |]. intros text s1.
  apply bind_agree; [reflexivity |]. intros sc s2.
  apply bind_agree; [reflexivity |]. intros bf s3.
  apply bind_agree; [apply sum_tokens_from_agree_tokenizers, H |]. intros b s4.
  apply bind_agree; [reflexivity |]. intros sf s5.
  apply bind_agree; [apply sum_tokens_from_agree_tokenizers, H |]. intros sk s6.
  reflexivity.
Qed.


(** *** Runs on the concrete setting *)

Notation "'ex_main'" :=
  (main Example.encoding_for_model Example.json_loads Example.json_dumps
        Example.str_exn Example.str_int Example.str_json
        Example.format_comma Example.format_1f).
Notation "'ex_script'" :=
  (script Example.encoding_for_model Example.json_loads Example.json_dumps
          Example.str_exn Example.str_int Example.str_json
          Example.format_comma Example.format_1f).
Notation "'ex_evaluate'" := (evaluate Example.encoding_for_model Example.json_loads).
Notation "'ex_evaluated'" := (evaluated Example.encoding_for_model Example.json_loads).

Lemma example_evaluate_a :
  ex_evaluate (Example.disk_of (Some ["a.json"])) "benchmarks/scenarios/a.json"
  = Ok Example.result_a.
Proof. vm_compute. reflexivity. Defined.

Lemma example_evaluate_b :
  ex_evaluate (Example.disk_of (Some ["b.json"])) "benchmarks/scenarios/b.json"
  = Ok Example.result_b.
Proof. vm_compute. reflexivity. Defined.

(** An empty baseline gives the int 0 as reduction, with no division. *)
Lemma example_evaluate_c :
  exists r,
    ex_evaluate (Example.disk_of (Some ["c.json"])) "benchmarks/scenarios/c.json" = Ok r /\
    baseline_tokens r = 0 /\ reduction_percentage r = PyInt 0 /\
    meets_expectation r = true.
Proof. eexists. split; [vm_compute; reflexivity | repeat split]. Qed.

(** C3. A scenario that raises is logged with its file and gives no
    result, but the run does not always go on without crashing: on a
    directory whose only scenario lists a missing file, the scenario is
    logged and skipped, the header of the report is printed, and [main] ends
    by an uncaught ZeroDivisionError with nothing exported. *)
Theorem skipped_scenario_crashes_run :
  ex_evaluate (Example.disk_of (Some ["d.json"])) "benchmarks/scenarios/d.json"
  = Err (LibraryError "[Errno 2] No such file or directory: 'docs/missing.md'") /\
  fst (ex_main (Example.start (Some ["d.json"]))) = Raise ZeroDivisionError /\
  stdout (snd (ex_main (Example.start (Some ["d.json"])))) =
  [ "Found 1 benchmark scenarios";
    "Error running scenario benchmarks/scenarios/d.json: [Errno 2] No such file or directory: 'docs/missing.md'";
    (newline ++ rule)%string;
    "TOKEN REDUCTION BENCHMARK RESULTS";
    rule ] /\
  disk (snd (ex_main (Example.start (Some ["d.json"])))) = Example.disk_of (Some ["d.json"]) /\
  exit_status (fst (ex_main (Example.start (Some ["d.json"])))) = 1.
Proof. vm_compute. repeat split; reflexivity. Qed.

(** With the scenario A beside it, the same failing scenario is skipped and
    the run ends normally. *)
Lemma skipped_scenario_beside_another :
  fst (ex_main (Example.start (Some ["d.json"; "a.json"]))) = SysExit 0 /\
  ex_evaluated (Example.disk_of (Some ["d.json"; "a.json"])) = [Example.result_a].
Proof. vm_compute. split; reflexivity. Qed.


Lemma reduction_percentage_formula_witness :
  exists q,
    py_truediv (PyInt 600) (PyInt 1000) = Ok q /\
    py_mul q (PyInt 100) = Ok (PyFloat (S754_finite false 8444249301319680 (-47))).
Proof.
  destruct (reduction_percentage_formula Example.encoding_for_model Example.json_loads
              (Example.disk_of (Some ["a.json"])) "benchmarks/scenarios/a.json"
              Example.result_a example_evaluate_a) as (_ & Hpos & _).
  apply Hpos. simpl. lia.
Defined.

Lemma all_scenarios_fail_crash_witness :
  fst (ex_main (Example.start (Some ["d.json"]))) = Raise ZeroDivisionError.
Proof.
  apply (all_scenarios_fail_crash Example.encoding_for_model Example.json_loads
           Example.json_dumps Example.str_exn Example.str_int Example.str_json
           Example.format_comma Example.format_1f (Example.start (Some ["d.json"]))).
  - vm_compute. discriminate.
  - intros f Hin. vm_compute in Hin. destruct Hin as [<- | []].
    eexists. vm_compute. reflexivity.
Defined.

Lemma discovery_failure_is_fatal_witness :
  fst (ex_main (Example.start None)) = SysExit 1 /\
  fst (ex_main (Example.start (Some ["notes.txt"]))) = SysExit 1.
Proof.
  split.
  - apply (discovery_failure_is_fatal Example.encoding_for_model Example.json_loads
             Example.json_dumps Example.str_exn Example.str_int Example.str_json
             Example.format_comma Example.format_1f (Example.start None)).
    left. reflexivity.
  - apply (discovery_failure_is_fatal Example.encoding_for_model Example.json_loads
             Example.json_dumps Example.str_exn Example.str_int Example.str_json
             Example.format_comma Example.format_1f (Example.start (Some ["notes.txt"]))).
    right. exists ["notes.txt"]. split; reflexivity.
Defined.

Lemma meets_expectation_iff_witness :
  exists expected,
    as_number (JInt 10) = Ok expected /\
    (false = true <-> py_ge (PyFloat (S754_zero false)) expected = true).
Proof.
  destruct (meets_expectation_iff Example.encoding_for_model Example.json_loads
              (Example.disk_of (Some ["b.json"])) "benchmarks/scenarios/b.json"
              Example.result_b example_evaluate_b) as (expected & Hnum & Hiff & _).
  exists expected. split; [exact Hnum | exact Hiff].
Defined.



Lemma evaluation_is_reproducible_witness :
  ex_evaluate (Example.disk_of (Some ["a.json"])) "benchmarks/scenarios/a.json"
  = ex_evaluate (write_file results_file "{}" (Example.disk_of (Some ["a.json"])))
                "benchmarks/scenarios/a.json".
Proof.
  apply (evaluation_is_reproducible Example.encoding_for_model Example.json_loads
           (Example.disk_of (Some ["a.json"]))
           (write_file results_file "{}" (Example.disk_of (Some ["a.json"])))
           "benchmarks/scenarios/a.json").
  intros path Hin. vm_compute in Hin.
  repeat (destruct Hin as [<- | Hin]; [vm_compute; reflexivity |]).
  destruct Hin.
Defined.

Lemma tokenizer_is_fixed_witness :
  run_scenario Example.encoding_for_model Example.json_loads
               "benchmarks/scenarios/a.json" (Example.start (Some ["a.json"]))
  = run_scenario Example.any_model Example.json_loads
                 "benchmarks/scenarios/a.json" (Example.start (Some ["a.json"])).
Proof.
  apply (tokenizer_is_fixed Example.encoding_for_model Example.any_model
           Example.json_loads "benchmarks/scenarios/a.json"
           (Example.start (Some ["a.json"]))).
  unfold agree_on_model. simpl. intro text. reflexivity.
Defined.


(** *** Runs for the further properties *)

Notation "'more_evaluate'" :=
  (evaluate Example.encoding_for_model MoreExamples.json_loads).


Lemma more_evaluate_e :
  more_evaluate MoreExamples.disk "benchmarks/scenarios/e.json" = Ok MoreExamples.result_e.
Proof. vm_compute. reflexivity. Defined.

Lemma more_evaluate_z :
  more_evaluate MoreExamples.disk "benchmarks/scenarios/z.json" = Ok MoreExamples.result_z.
Proof. vm_compute. reflexivity. Defined.

Lemma more_evaluate_n :
  more_evaluate MoreExamples.disk "benchmarks/scenarios/n.json" = Ok MoreExamples.result_n.
Proof. vm_compute. reflexivity. Defined.


Lemma exit_zero_guarantees_export_witness :
  ex_evaluated (Example.disk_of (Some ["a.json"])) <> [] /\
  forallb meets_expectation (ex_evaluated (Example.disk_of (Some ["a.json"]))) = true.
Proof.
  destruct (exit_zero_guarantees_export Example.encoding_for_model Example.json_loads
              Example.json_dumps Example.str_exn Example.str_int Example.str_json
              Example.format_comma Example.format_1f true
              (Example.start (Some ["a.json"]))) as (_ & Hne & Hall & _).
  - vm_compute. reflexivity.
  - split; [exact Hne | exact Hall].
Defined.

Lemma token_total_ignores_order_witness :
  pure_of (sum_tokens Example.encoding_for_model [JStr "docs/a2.md"; JStr "docs/a1.md"])
          (Example.disk_of None) = Ok 1000.
Proof.
  apply (token_total_ignores_order Example.encoding_for_model (Example.disk_of None)
           [JStr "docs/a1.md"; JStr "docs/a2.md"]).
  - apply perm_swap.
  - vm_compute. reflexivity.
Defined.

Lemma reduction_at_the_ends_witness :
  reduction_of 7 7 = Ok (PyFloat (S754_zero false)) /\
  reduction_of 7 0 = Ok (PyFloat (S754_finite false 7036874417766400 (-46))).
Proof. apply (reduction_at_the_ends 7). lia. Defined.

Lemma larger_skills_never_pass_witness :
  meets_expectation MoreExamples.result_e = false.
Proof.
  apply (larger_skills_never_pass Example.encoding_for_model MoreExamples.json_loads
           MoreExamples.disk "benchmarks/scenarios/e.json" MoreExamples.result_e 5).
  - exact more_evaluate_e.
  - simpl. lia.
  - reflexivity.
  - lia.
Defined.

Lemma smaller_skills_pass_zero_threshold_witness :
  meets_expectation MoreExamples.result_z = true.
Proof.
  apply (smaller_skills_pass_zero_threshold Example.encoding_for_model
           MoreExamples.json_loads MoreExamples.disk "benchmarks/scenarios/z.json"
           MoreExamples.result_z 0).
  - exact more_evaluate_z.
  - simpl. lia.
  - reflexivity.
  - lia.
Defined.

Lemma evaluated_descriptor_is_complete_witness :
  exists text members,
    content (Example.disk_of (Some ["a.json"])) "benchmarks/scenarios/a.json" = Ok text /\
    Example.json_loads text = Ok (JObj members) /\
    assoc "name" members = Some (JStr "A").
Proof.
  destruct (evaluated_descriptor_is_complete Example.encoding_for_model
              Example.json_loads (Example.disk_of (Some ["a.json"]))
              "benchmarks/scenarios/a.json" Example.result_a example_evaluate_a)
    as (text & members & Hread & Hloads & _ & Hname & _).
  exists text, members. split; [exact Hread |]. split; [exact Hloads | exact Hname].
Defined.

Lemma malformed_descriptor_raises_witness :
  more_evaluate MoreExamples.disk "benchmarks/scenarios/l.json" = Err TypeError.
Proof.
  apply (malformed_descriptor_raises Example.encoding_for_model MoreExamples.json_loads
           MoreExamples.disk "benchmarks/scenarios/l.json" "L" (JArr [])).
  - reflexivity.
  - reflexivity.
  - intros members H. discriminate H.
Defined.





Lemma nan_threshold_never_met_witness :
  meets_expectation MoreExamples.result_n = false.
Proof.
  apply (nan_threshold_never_met Example.encoding_for_model MoreExamples.json_loads
           MoreExamples.disk "benchmarks/scenarios/n.json" MoreExamples.result_n).
  - exact more_evaluate_n.
  - reflexivity.
Defined.
